(** * KrishiSutra: the agent orchestration and routing layer

    A shallow embedding of the two front ends of the repository,
    [app.py] (the Gradio application, module [App]) and [main_app.py]
    (the Streamlit application, module [MainApp]): domain classification,
    the agent cache, the context-retrieval step, answer synthesis and the
    conversation log.

    The per-domain agent builders, the agents they return and the
    generation service are external collaborators.  They are taken as
    fields of an environment record; each of them may answer differently
    from one call to the next, so each receives the log of the external
    calls made so far.  Effects are threaded through a state and
    exception monad whose state holds the globals of the program, the
    working area and that log.

    Two things are taken for granted: writing an upload to the working
    area succeeds, and what the collaborators raise are instances of
    [Exception]. *)

From Stdlib Require Import NArith List Bool Ascii String Lia.
From stdpp Require Import gmap list.

Local Open Scope N_scope.

(** ** Python strings

    A Python [str] is a sequence of Unicode code points. *)

Abbreviation pystr := (list N).

(** A literal written in ASCII. *)
Definition str (s : string) : pystr :=
  List.map N_of_ascii (list_ascii_of_string s).

(** [str.lower()].  The ASCII capitals are mapped to their small letters.
    Outside ASCII only two code points lower-case to something that
    contains an ASCII letter: U+212A (KELVIN SIGN, to [k]) and U+0130
    (to [i] followed by U+0307).  Every other code point is kept as it
    is: its lower-case form has no ASCII letter, so it cannot take part
    in a match of the ASCII keywords below. *)
Definition lower_char (c : N) : pystr :=
  if (65 <=? c) && (c <=? 90) then [c + 32]
  else if c =? 0x212A then [0x6B]
  else if c =? 0x130 then [0x69; 0x307]
  else [c].

Definition lower (s : pystr) : pystr := flat_map lower_char s.

(** The code points for which [str.isspace()] holds; they are the ones
    [str.strip()] removes. *)
Definition is_space (c : N) : bool :=
  ((9 <=? c) && (c <=? 13)) || ((0x1C <=? c) && (c <=? 0x20))
  || (c =? 0x85) || (c =? 0xA0) || (c =? 0x1680)
  || ((0x2000 <=? c) && (c <=? 0x200A))
  || (c =? 0x2028) || (c =? 0x2029) || (c =? 0x202F)
  || (c =? 0x205F) || (c =? 0x3000).

Fixpoint lstrip (s : pystr) : pystr :=
  match s with
  | [] => []
  | c :: s' => if is_space c then lstrip s' else s
  end.

Definition strip (s : pystr) : pystr := rev (lstrip (rev (lstrip s))).

(** [q.startswith(w)] and the substring test [w in q]. *)
Fixpoint startswith (w q : pystr) : bool :=
  match w, q with
  | [], _ => true
  | _ :: _, [] => false
  | a :: w', b :: q' => (a =? b) && startswith w' q'
  end.

Fixpoint contains (w q : pystr) : bool :=
  match q with
  | [] => startswith w []
  | _ :: q' => startswith w q || contains w q'
  end.

(** [any(word in query for word in words)] *)
Definition any_in (words : list pystr) (query : pystr) : bool :=
  existsb (fun word => contains word query) words.

(** Truth value of a [str] and of an optional [str] ([None] or a string). *)
Definition truthy_str (s : pystr) : bool :=
  match s with [] => false | _ => true end.

Definition truthy_opt (o : option pystr) : bool :=
  match o with None => false | Some s => truthy_str s end.

(** [a or b] where [a] is [None] or a string. *)
Definition or_else (a : option pystr) (b : pystr) : pystr :=
  match a with
  | Some s => if truthy_str s then s else b
  | None => b
  end.

(** [os.path.basename]: what follows the last [/]. *)
Fixpoint basename_aux (s acc : pystr) : pystr :=
  match s with
  | [] => acc
  | c :: s' => if c =? 47 then basename_aux s' [] else basename_aux s' (acc ++ [c])
  end.

Definition basename (s : pystr) : pystr := basename_aux s [].

(** ** The labels and messages of the source *)

Definition climate_agent : pystr := [0x1F326; 0xFE0F] ++ str " Climate Agent".
Definition agriculture_agent : pystr := [0x1F33E] ++ str " Agriculture Agent".
Definition scheme_agent : pystr := [0x1F9FE] ++ str " Scheme Agent".
Definition kcc_agent : pystr := [0x260E; 0xFE0F] ++ str " KCC Agent".
Definition auto_detect : pystr := str "Auto Detect".

Definition climate_words : list pystr :=
  [str "rain"; str "temperature"; str "climate"; str "weather"].
Definition agriculture_words : list pystr :=
  [str "crop"; str "yield"; str "price"; str "production"; str "agriculture"].
Definition scheme_words : list pystr :=
  [str "scheme"; str "pmkisan"; str "subsidy"; str "beneficiary"].
Definition helpline_words : list pystr :=
  [str "kcc"; str "helpline"; str "call centre"].

Definition no_response : pystr := [0x26A0; 0xFE0F] ++ str " No response generated.".
Definition error_prefix : pystr := [0x274C] ++ str " Error: ".
Definition failed_to_initialize : pystr := [0x274C] ++ str " Failed to initialize ".
Definition error_retrieving : pystr := [0x274C] ++ str " Error retrieving context: ".

Definition climate_default : pystr := str "data/Mean_Temp_IMD_2017.csv".
Definition agriculture_default : pystr :=
  str "data/Current Daily Price of Various Commodities from Various Markets (Mandi).csv".
Definition scheme_default : pystr := str "data/GetPMKisanDatagov.json".

(** ** Exceptions, results and the log of external calls *)

(** The exceptions of the model are instances of [Exception]; the class
    matters only where the source names it ([except AttributeError]).
    [exn_msg] is [str(e)]. *)
Inductive exn_class := AttributeError | OtherException.

Record exn := mk_exn { exn_cls : exn_class; exn_msg : pystr }.

Inductive result (A : Type) :=
| Ret (a : A)
| Raise (e : exn).
Arguments Ret {A} a.
Arguments Raise {A} e.

Inductive builder := BuildClimate | BuildAgriculture | BuildScheme | BuildKcc.

Inductive ui_kind := UiSuccess | UiError | UiWarning | UiWrite.

(** What the program does to the outside, in the order it does it. *)
Inductive event :=
| EvWrite (path : pystr) (content : list N)
| EvBuild (b : builder) (arg : pystr)
| EvRetrieveContext (agent : nat) (query : pystr)
| EvRun (agent : nat) (query : pystr)
| EvGenerate (model prompt : pystr)
| EvUi (k : ui_kind) (msg : pystr).

(** An agent instance.  [agent_id] is the identity of the object,
    [agent_truth] is [bool(agent)], and each of the two capabilities is
    present or not ([hasattr]). *)
Record agent := mk_agent {
  agent_id : nat;
  agent_class : pystr;
  agent_truth : bool;
  retrieve_context : option (pystr -> list event -> result pystr);
  run : option (pystr -> list event -> result pystr)
}.

(** An uploaded file object: its [name] and what [read()] returns. *)
Record uploaded_file := mk_upload {
  uf_name : pystr;
  uf_read : list event -> list N
}.

(** The configuration and the external collaborators. *)
Record env := mk_env {
  DATA_GOV_API_KEY : option pystr;
  CHAT_MODEL : pystr;
  build_climate_agent : pystr -> list event -> result (option agent);
  build_agriculture_agent : pystr -> list event -> result (option agent);
  build_scheme_agent : pystr -> list event -> result (option agent);
  build_kcc_agent : pystr -> list event -> result (option agent);
  (** [GenerativeModel(model).generate_content(prompt).text] *)
  generate_content : pystr -> pystr -> list event -> result (option pystr)
}.

Definition builder_fun (E : env) (b : builder) : pystr -> list event -> result (option agent) :=
  match b with
  | BuildClimate => build_climate_agent E
  | BuildAgriculture => build_agriculture_agent E
  | BuildScheme => build_scheme_agent E
  | BuildKcc => build_kcc_agent E
  end.

(** Truth value of [None] or an agent. *)
Definition truthy_agent (a : option agent) : bool :=
  match a with None => false | Some a => agent_truth a end.

(** The state: the program's own globals [G], the working area and the
    log. *)
Record world (G : Type) := mk_world {
  globals : G;
  files : gmap pystr (list N);
  log : list event
}.
Arguments mk_world {G} _ _ _.
Arguments globals {G} _.
Arguments files {G} _.
Arguments log {G} _.

Definition M (G A : Type) : Type := world G -> result A * world G.

Definition ret {G A} (a : A) : M G A := fun w => (Ret a, w).

Definition raise {G A} (e : exn) : M G A := fun w => (Raise e, w).

Definition bind {G A B} (m : M G A) (k : A -> M G B) : M G B :=
  fun w => match m w with
           | (Ret a, w') => k a w'
           | (Raise e, w') => (Raise e, w')
           end.

(** The two [except] clauses of the source. *)
Inductive except_clause := ExceptException | ExceptAttributeError.

Definition caught (c : except_clause) (e : exn) : bool :=
  match c, exn_cls e with
  | ExceptException, _ => true
  | ExceptAttributeError, AttributeError => true
  | ExceptAttributeError, OtherException => false
  end.

(** [try: m except c as e: h e] *)
Definition catch {G A} (c : except_clause) (m : M G A) (h : exn -> M G A) : M G A :=
  fun w => match m w with
           | (Ret a, w') => (Ret a, w')
           | (Raise e, w') => if caught c e then h e w' else (Raise e, w')
           end.

(** [try: m except Exception as e: ...], with the outcome handed to the
    code that follows. *)
Definition try_except {G A} (m : M G A) : M G (result A) :=
  fun w => match m w with (r, w') => (Ret r, w') end.

Declare Scope py_scope.
Delimit Scope py_scope with py.
Notation "x <- m ;; k" := (bind m (fun x => k))
  (at level 100, m at next level, right associativity) : py_scope.
Notation "m ;;; k" := (bind m (fun _ => k))
  (at level 100, right associativity) : py_scope.
Local Open Scope py_scope.

Definition get_globals {G} : M G G := fun w => (Ret (globals w), w).

Definition put_globals {G} (g : G) : M G unit :=
  fun w => (Ret tt, mk_world g (files w) (log w)).

Definition emit {G} (e : event) : M G unit :=
  fun w => (Ret tt, mk_world (globals w) (files w) (log w ++ [e])).

(** A call to an external collaborator: it sees the log so far, and the
    call is logged whether it returns or raises. *)
Definition external {G A} (e : event) (f : list event -> result A) : M G A :=
  fun w => (f (log w), mk_world (globals w) (files w) (log w ++ [e])).

(** [os.makedirs("data", exist_ok=True)] and
    [with open(path, "wb") as f: f.write(uploaded_file.read())].
    The upload is taken to be a readable file object and [path] to be
    writable, so that the four calls return; a run in which one of them
    raises (a name without base name, an object without [read]) is
    outside the model. *)
Definition write_upload {G} (path : pystr) (f : uploaded_file) : M G unit :=
  fun w => let content := uf_read f (log w) in
           (Ret tt, mk_world (globals w) (<[path := content]> (files w))
                             (log w ++ [EvWrite path content])).

Definition call_builder {G} (E : env) (b : builder) (arg : pystr) : M G (option agent) :=
  external (EvBuild b arg) (builder_fun E b arg).

(** The message of the [AttributeError] a missing method gives. *)
Definition no_attribute (a : agent) (name : string) : exn :=
  mk_exn AttributeError
    (str "'" ++ agent_class a ++ str "' object has no attribute '" ++ str name ++ str "'").

(** [agent.retrieve_context(query)] and [agent.run(query)]. *)
Definition call_retrieve_context {G} (a : agent) (query : pystr) : M G pystr :=
  match retrieve_context a with
  | Some f => external (EvRetrieveContext (agent_id a) query) (f query)
  | None => raise (no_attribute a "retrieve_context")
  end.

Definition call_run {G} (a : agent) (query : pystr) : M G pystr :=
  match run a with
  | Some f => external (EvRun (agent_id a) query) (f query)
  | None => raise (no_attribute a "run")
  end.

Definition hasattr_retrieve_context (a : agent) : bool :=
  match retrieve_context a with Some _ => true | None => false end.

Definition call_generate {G} (E : env) (prompt : pystr) : M G (option pystr) :=
  external (EvGenerate (CHAT_MODEL E) prompt) (generate_content E (CHAT_MODEL E) prompt).

(** Counting in the log. *)
Definition is_build (e : event) : bool :=
  match e with EvBuild _ _ => true | _ => false end.
Definition is_write (e : event) : bool :=
  match e with EvWrite _ _ => true | _ => false end.
Definition is_retrieve_context (e : event) : bool :=
  match e with EvRetrieveContext _ _ => true | _ => false end.
Definition is_run (e : event) : bool :=
  match e with EvRun _ _ => true | _ => false end.

Definition count (p : event -> bool) (l : list event) : nat :=
  length (List.filter p l).

Definition nl : pystr := [10].

(** ** app.py *)

Module App.

(** [agent_cache = {}], a module global; the only one that changes. *)
Abbreviation cache := (gmap pystr agent).

Definition cache_key (agent_choice : pystr) (temp_path : option pystr) : pystr :=
  agent_choice ++ str "_" ++ or_else temp_path (str "default").

Definition temp_path_of (f : uploaded_file) : pystr :=
  str "data/" ++ basename (uf_name f).

(** The [if]/[elif] chain of [get_agent] that picks the builder. *)
Definition build_agent (E : env) (agent_choice : pystr) (temp_path : option pystr)
  : M cache (option agent) :=
  if bool_decide (agent_choice = climate_agent) then
    call_builder E BuildClimate (or_else temp_path climate_default)
  else if bool_decide (agent_choice = agriculture_agent) then
    call_builder E BuildAgriculture (or_else temp_path agriculture_default)
  else if bool_decide (agent_choice = scheme_agent) then
    call_builder E BuildScheme (or_else temp_path scheme_default)
  else if bool_decide (agent_choice = kcc_agent) then
    match DATA_GOV_API_KEY E with
    | Some key => if truthy_str key then call_builder E BuildKcc key else ret None
    | None => ret None
    end
  else ret None.

Definition get_agent (E : env) (agent_choice : pystr) (uploaded_file : option uploaded_file)
  : M cache (option agent) :=
  temp_path <- match uploaded_file with
               | Some f => write_upload (temp_path_of f) f ;;; ret (Some (temp_path_of f))
               | None => ret None
               end ;;
  agent_cache <- get_globals ;;
  match agent_cache !! cache_key agent_choice temp_path with
  | Some a => ret (Some a)
  | None =>
      a <- build_agent E agent_choice temp_path ;;
      (if truthy_agent a
       then match a with
            | Some a' => put_globals (<[cache_key agent_choice temp_path := a']> agent_cache)
            | None => ret tt
            end
       else ret tt) ;;;
      ret a
  end.

(** The keyword tests, applied to the lower-cased query. *)
Definition classify (query : pystr) : pystr :=
  if any_in climate_words query then climate_agent
  else if any_in agriculture_words query then agriculture_agent
  else if any_in scheme_words query then scheme_agent
  else if any_in helpline_words query then kcc_agent
  else agriculture_agent.

Definition auto_select_agent (user_query : pystr) : pystr :=
  classify (lower user_query).

Definition full_prompt (prompt context : pystr) : pystr :=
  nl ++ str "You are an AI assistant for smart agriculture - KrishiSutra." ++
  nl ++ str "Use the following context to answer the question accurately." ++
  nl ++ nl ++ str "Context:" ++ nl ++ context ++
  nl ++ nl ++ str "Question:" ++ nl ++ prompt ++
  nl ++ nl ++ str "Provide a concise, factual, and human-readable answer." ++ nl.

Definition gemini_answer {G} (E : env) (prompt context : pystr) : M G pystr :=
  catch ExceptException
    (text <- call_generate E (full_prompt prompt context) ;;
     ret (or_else text no_response))
    (fun e => ret (error_prefix ++ exn_msg e)).

(** Step 3 of [chat_handler] without its [try]. *)
Definition retrieve {G} (qa_agent : agent) (user_query : pystr) : M G pystr :=
  if hasattr_retrieve_context qa_agent
  then call_retrieve_context qa_agent user_query
  else call_run qa_agent user_query.

Definition is_blank (user_query : pystr) : bool :=
  negb (truthy_str user_query) || bool_decide (strip user_query = []).

Abbreviation history := (list (pystr * pystr)).

Definition chat_handler (E : env) (user_query agent_choice : pystr)
    (uploaded_file : option uploaded_file) (chat_history : history)
  : M cache (history * pystr) :=
  if is_blank user_query then ret (chat_history, [])
  else
    let selected_agent :=
      if bool_decide (agent_choice = auto_detect)
      then auto_select_agent user_query else agent_choice in
    let failed :=
      ret (chat_history ++ [(user_query, failed_to_initialize ++ selected_agent)], []) in
    qa_agent <- get_agent E selected_agent uploaded_file ;;
    match qa_agent with
    | Some a =>
        if agent_truth a then
          r <- try_except (retrieve a user_query) ;;
          match r with
          | Raise e =>
              ret (chat_history ++ [(user_query, error_retrieving ++ exn_msg e)], [])
          | Ret context =>
              final_answer <- gemini_answer E user_query context ;;
              ret (chat_history ++ [(user_query, final_answer)], [])
          end
        else failed
    | None => failed
    end.

End App.

(** ** main_app.py *)

Module MainApp.

(** [st.session_state.chat_history] is the state the script changes. *)
Abbreviation history := (list (pystr * pystr)).

Definition loaded_file : pystr := [0x2705] ++ str " Loaded file: ".
Definition missing_key : pystr :=
  [0x274C] ++ str " Missing data.gov.in API key for KCC Agent.".
Definition could_not_detect : pystr :=
  [0x1F916] ++ str " Could not auto-detect domain. Please select an agent manually.".
Definition failed_selected : pystr :=
  [0x274C] ++ str " Failed to initialize selected agent.".
Definition latest_response : pystr := [0x2705] ++ str " Latest Response:".

Definition temp_path_of (f : uploaded_file) : pystr := str "data/" ++ uf_name f.

(** The body of [get_agent].  The function is wrapped by
    [st.cache_resource], which keeps what a call returned and hands it
    back for equal arguments without running the body; the embedding
    is the body, that is a call the decorator does not answer from its
    store. *)
Definition get_agent {G} (E : env) (agent_choice : pystr) (api_key : option pystr)
    (uploaded_file : option uploaded_file) : M G (option agent) :=
  temp_path <- match uploaded_file with
               | Some f =>
                   write_upload (temp_path_of f) f ;;;
                   emit (EvUi UiSuccess (loaded_file ++ uf_name f)) ;;;
                   ret (Some (temp_path_of f))
               | None => ret None
               end ;;
  if bool_decide (agent_choice = climate_agent) then
    call_builder E BuildClimate (or_else temp_path climate_default)
  else if bool_decide (agent_choice = agriculture_agent) then
    call_builder E BuildAgriculture (or_else temp_path agriculture_default)
  else if bool_decide (agent_choice = scheme_agent) then
    call_builder E BuildScheme (or_else temp_path scheme_default)
  else if bool_decide (agent_choice = kcc_agent) then
    match api_key with
    | Some key =>
        if truthy_str key then call_builder E BuildKcc key
        else emit (EvUi UiError missing_key) ;;; ret None
    | None => emit (EvUi UiError missing_key) ;;; ret None
    end
  else ret None.

Definition classify (query : pystr) : option pystr :=
  if any_in climate_words query then Some climate_agent
  else if any_in agriculture_words query then Some agriculture_agent
  else if any_in scheme_words query then Some scheme_agent
  else if any_in helpline_words query then Some kcc_agent
  else None.

Definition auto_select_agent (user_query : pystr) : option pystr :=
  classify (lower user_query).

Definition indent : pystr := str "        ".

Definition full_prompt (prompt context : pystr) : pystr :=
  nl ++ indent ++ str "You are an AI assistant for smart agriculture." ++
  nl ++ indent ++ str "Use the following context to answer the question accurately." ++
  nl ++ nl ++ indent ++ str "Context:" ++ nl ++ indent ++ context ++
  nl ++ nl ++ indent ++ str "Question:" ++ nl ++ indent ++ prompt ++
  nl ++ nl ++ indent ++ str "Provide a concise, factual, and human-readable answer." ++
  nl ++ indent.

Definition gemini_answer {G} (E : env) (prompt context : pystr) : M G pystr :=
  catch ExceptException
    (text <- call_generate E (full_prompt prompt context) ;;
     ret (or_else text no_response))
    (fun e => ret (error_prefix ++ exn_msg e)).

(** Step 3 of the submit block: [try: retrieve_context] with
    [except AttributeError: run]. *)
Definition retrieve {G} (qa_agent : agent) (user_query : pystr) : M G pystr :=
  catch ExceptAttributeError
    (call_retrieve_context qa_agent user_query)
    (fun _ => call_run qa_agent user_query).

(** How a press of Submit ends: nothing to do (empty query), the run
    was stopped by [st.stop()], or an answer was recorded. *)
Inductive submit_end := Skipped | Stopped | Answered.

(** The block under [if st.button("Submit") and user_query:]. *)
Definition submit (E : env) (agent_choice : pystr)
    (uploaded_file : option uploaded_file) (user_query : pystr)
  : M history submit_end :=
  if negb (truthy_str user_query) then ret Skipped
  else
    let selected_agent :=
      if bool_decide (agent_choice = auto_detect)
      then auto_select_agent user_query else Some agent_choice in
    match selected_agent with
    | Some selected =>
        if truthy_str selected then
          qa_agent <- get_agent E selected (DATA_GOV_API_KEY E) uploaded_file ;;
          let stop := emit (EvUi UiError failed_selected) ;;; ret Stopped in
          match qa_agent with
          | Some a =>
              if agent_truth a then
                context <- retrieve a user_query ;;
                final_answer <- gemini_answer E user_query context ;;
                chat_history <- get_globals ;;
                put_globals (chat_history ++ [(user_query, final_answer)]) ;;;
                emit (EvUi UiSuccess latest_response) ;;;
                emit (EvUi UiWrite final_answer) ;;;
                ret Answered
              else stop
          | None => stop
          end
        else emit (EvUi UiWarning could_not_detect) ;;; ret Stopped
    | None => emit (EvUi UiWarning could_not_detect) ;;; ret Stopped
    end.

End MainApp.

(** ** Vocabulary of the properties *)

(** The four concrete domains. *)
Definition concrete_domains : list pystr :=
  [climate_agent; agriculture_agent; scheme_agent; kcc_agent].

(** Some keyword of some domain occurs in the (lower-cased) query. *)
Definition matches_keyword (query : pystr) : bool :=
  any_in (climate_words ++ agriculture_words ++ scheme_words ++ helpline_words) query.

(** A query made of white space only (the empty query included). *)
Definition whitespace_only (user_query : pystr) : bool := forallb is_space user_query.

(** A lookup that did not produce a usable agent: it raised, or what it
    returned is [None] or falsy. *)
Definition lookup_failed (r : result (option agent)) : Prop :=
  match r with
  | Raise _ => True
  | Ret a => truthy_agent a = false
  end.

(** The dataset path the cache key is made from. *)
Definition staged (uploaded_file : option uploaded_file) : option pystr :=
  match uploaded_file with
  | Some f => Some (App.temp_path_of f)
  | None => None
  end.

(** The state in which the builder chain runs on a miss: the upload, if
    any, has been written. *)
Definition after_staging {G} (uploaded_file : option uploaded_file) (w : world G) : world G :=
  match uploaded_file with
  | Some f => snd (write_upload (App.temp_path_of f) f w)
  | None => w
  end.

(** The agent, asked for context at log [l], raises [e]: from
    [retrieve_context] when it has it, from [run] when that is all it
    has. *)
Definition capability_raises (a : agent) (q : pystr) (l : list event) (e : exn) : Prop :=
  (exists f, retrieve_context a = Some f /\ f q l = Raise e)
  \/ (exists g, retrieve_context a = None /\ run a = Some g /\ g q l = Raise e).

(** The same, leaving out an [AttributeError] out of [retrieve_context]. *)
Definition capability_raises_plainly (a : agent) (q : pystr) (l : list event) (e : exn)
  : Prop :=
  (exists f, retrieve_context a = Some f /\ f q l = Raise e /\ exn_cls e = OtherException)
  \/ (exists g, retrieve_context a = None /\ run a = Some g /\ g q l = Raise e).

(** The state after one more external call. *)
Definition logged {G} (w : world G) (e : event) : world G :=
  mk_world (globals w) (files w) (log w ++ [e]).

(** The registry read off the [if]/[elif] chain of [get_agent]: the
    builder a choice leads to and the argument it is given, if any. *)
Definition builder_call (E : env) (agent_choice : pystr) (temp_path : option pystr)
  : option (builder * pystr) :=
  if bool_decide (agent_choice = climate_agent)
  then Some (BuildClimate, or_else temp_path climate_default)
  else if bool_decide (agent_choice = agriculture_agent)
  then Some (BuildAgriculture, or_else temp_path agriculture_default)
  else if bool_decide (agent_choice = scheme_agent)
  then Some (BuildScheme, or_else temp_path scheme_default)
  else if bool_decide (agent_choice = kcc_agent)
  then match DATA_GOV_API_KEY E with
       | Some key => if truthy_str key then Some (BuildKcc, key) else None
       | None => None
       end
  else None.

(** What holds of the cache of app.py at any time: the agents in it are
    truthy, and without the credential no key of the KCC domain is in
    it. *)
Definition cache_inv (E : env) (c : App.cache) : Prop :=
  forall k a, c !! k = Some a ->
    agent_truth a = true
    /\ (truthy_opt (DATA_GOV_API_KEY E) = false -> startswith kcc_agent k = false).

(** The answer [gemini_answer] makes of what the generation service
    did. *)
Definition answer_of (r : result (option pystr)) : pystr :=
  match r with
  | Raise e => error_prefix ++ exn_msg e
  | Ret None => no_response
  | Ret (Some []) => no_response
  | Ret (Some (c :: t)) => c :: t
  end.

(** States of app.py: the cache starts empty and changes only through
    [get_agent], which [chat_handler] calls. *)
Inductive reachable (E : env) : world App.cache -> Prop :=
| reach_start fs : reachable E (mk_world ∅ fs [])
| reach_get_agent w choice file r w' :
    reachable E w -> App.get_agent E choice file w = (r, w') -> reachable E w'
| reach_chat_handler w q choice file h r w' :
    reachable E w -> App.chat_handler E q choice file h w = (r, w') -> reachable E w'.

(** What staging adds to the log [l]: the write of the upload, if there
    is one. *)
Definition staging_events (uploaded_file : option uploaded_file) (l : list event)
  : list event :=
  match uploaded_file with
  | Some f => [EvWrite (App.temp_path_of f) (uf_read f l)]
  | None => []
  end.

(** More vocabulary, for the properties beyond the listed ones. *)

Definition is_generate (e : event) : bool :=
  match e with EvGenerate _ _ => true | _ => false end.

(** A string without [/]. *)
Definition no_slash (s : pystr) : bool := forallb (fun c => negb (c =? 47)) s.

(** Two code points that are the same, or the capital and the small form
    of one ASCII letter. *)
Definition same_letter (c d : N) : Prop :=
  c = d \/ (65 <= c <= 90 /\ d = c + 32) \/ (65 <= d <= 90 /\ c = d + 32).

(** The agent [chat_handler] of app.py asks for. *)
Definition selected_agent (agent_choice user_query : pystr) : pystr :=
  if bool_decide (agent_choice = auto_detect)
  then App.auto_select_agent user_query else agent_choice.

(** Keys of the cache are a domain label, [_] and a dataset path, and
    the agents under them are truthy. *)
Definition cache_wf (c : App.cache) : Prop :=
  forall k a, c !! k = Some a ->
    agent_truth a = true
    /\ exists label path, In label concrete_domains /\ k = label ++ str "_" ++ path.

(** ** Sample agents, environments and inputs *)

Module Sample.

Definition structured : agent :=
  mk_agent 1 (str "ClimateAgent") true
    (Some (fun q _ => Ret (str "IMD rows about " ++ q)))
    (Some (fun _ _ => Ret (str "combined answer"))).

Definition legacy : agent :=
  mk_agent 2 (str "SchemeAgent") true None
    (Some (fun _ _ => Ret (str "combined answer"))).

Definition broken_index : agent :=
  mk_agent 3 (str "AgricultureAgent") true
    (Some (fun _ _ => Raise (mk_exn OtherException (str "index unavailable"))))
    (Some (fun _ _ => Ret (str "combined answer"))).

(** An agent whose retriever was never set: the call inside
    [retrieve_context] fails with an [AttributeError]. *)
Definition unset_retriever : agent :=
  mk_agent 4 (str "ClimateAgent") true
    (Some (fun _ _ =>
       Raise (mk_exn AttributeError (str "'NoneType' object has no attribute 'invoke'"))))
    (Some (fun _ _ => Ret (str "combined answer"))).

Definition kcc : agent :=
  mk_agent 5 (str "KccAgent") true (Some (fun _ _ => Ret (str "call records"))) None.

Definition environment (key : option pystr)
    (climate : pystr -> list event -> result (option agent))
    (generate : pystr -> pystr -> list event -> result (option pystr)) : env :=
  mk_env key (str "models/gemini-pro-latest")
    climate
    (fun _ _ => Ret (Some broken_index))
    (fun _ _ => Ret (Some legacy))
    (fun _ _ => Ret (Some kcc))
    generate.

Definition answers : pystr -> pystr -> list event -> result (option pystr) :=
  fun _ _ _ => Ret (Some (str "It will rain.")).

Definition quota : pystr -> pystr -> list event -> result (option pystr) :=
  fun _ _ _ => Raise (mk_exn OtherException (str "429 quota exceeded")).

(** The climate builder fails the first time it is called and works
    afterwards. *)
Definition flaky : pystr -> list event -> result (option agent) :=
  fun _ l => if existsb is_build l then Ret (Some structured)
             else Raise (mk_exn OtherException (str "embedding service down")).

Definition env_ok : env :=
  environment (Some (str "key")) (fun _ _ => Ret (Some structured)) answers.
Definition env_no_key : env :=
  environment None (fun _ _ => Ret (Some structured)) answers.
Definition env_quota : env :=
  environment (Some (str "key")) (fun _ _ => Ret (Some structured)) quota.
Definition env_flaky : env := environment (Some (str "key")) flaky answers.
Definition env_unset : env :=
  environment (Some (str "key")) (fun _ _ => Ret (Some unset_retriever)) answers.

Definition upload : uploaded_file :=
  mk_upload (str "/tmp/gradio/rain_2020.csv") (fun _ => str "year,mm").

(** An agent object with neither capability. *)
Definition bare : agent := mk_agent 6 (str "Stub") true None None.

Definition env_bare : env :=
  environment (Some (str "key")) (fun _ _ => Ret (Some bare)) answers.

(** Another upload with the base name of [upload], from another
    directory and with other content. *)
Definition upload_again : uploaded_file :=
  mk_upload (str "/home/user/rain_2020.csv") (fun _ => str "year,mm,station").

(** A new process: nothing cached, nothing said, nothing done. *)
Definition fresh_app : world App.cache := mk_world ∅ ∅ [].
Definition fresh_main : world MainApp.history := mk_world [] ∅ [].

Definition rainfall : pystr := str "What is the expected rainfall in Kerala next week?".
Definition schemes : pystr := str "List government schemes for farmers".

End Sample.

(** * Properties *)

Arguments str : simpl never.

(** ** Strings *)

Lemma any_in_app (ws1 ws2 : list pystr) (q : pystr) :
  any_in (ws1 ++ ws2) q = any_in ws1 q || any_in ws2 q.
Proof. unfold any_in. apply existsb_app. Qed.

Lemma matches_keyword_split (q : pystr) :
  matches_keyword q =
  any_in climate_words q || (any_in agriculture_words q
    || (any_in scheme_words q || any_in helpline_words q)).
Proof. unfold matches_keyword. now rewrite !any_in_app. Qed.

Lemma lstrip_whitespace (s : pystr) : whitespace_only s = true -> lstrip s = [].
Proof.
  unfold whitespace_only.
  induction s as [|c s IH]; simpl; [reflexivity|].
  intros [Hc Hs]%andb_prop. rewrite Hc. auto.
Qed.

Lemma strip_whitespace (s : pystr) : whitespace_only s = true -> strip s = [].
Proof. intros H. unfold strip. now rewrite (lstrip_whitespace _ H). Qed.

Lemma is_blank_whitespace (s : pystr) : whitespace_only s = true -> App.is_blank s = true.
Proof.
  intros H. unfold App.is_blank. rewrite (strip_whitespace _ H).
  rewrite bool_decide_eq_true_2 by reflexivity. apply orb_true_r.
Qed.

(** ** The classifier *)

Lemma app_classify_domain (s : pystr) : In (App.classify s) concrete_domains.
Proof.
  unfold App.classify, concrete_domains.
  repeat match goal with |- context [if ?b then _ else _] => destruct b end;
    simpl; auto.
Qed.

Lemma classify_match (s : pystr) :
  matches_keyword s = true -> MainApp.classify s = Some (App.classify s).
Proof.
  rewrite matches_keyword_split. unfold MainApp.classify, App.classify.
  destruct (any_in climate_words s), (any_in agriculture_words s),
    (any_in scheme_words s), (any_in helpline_words s); simpl; congruence.
Qed.

Lemma classify_no_match (s : pystr) :
  matches_keyword s = false ->
  MainApp.classify s = None /\ App.classify s = agriculture_agent.
Proof.
  rewrite matches_keyword_split. unfold MainApp.classify, App.classify.
  destruct (any_in climate_words s), (any_in agriculture_words s),
    (any_in scheme_words s), (any_in helpline_words s); simpl; intros; try discriminate; auto.
Qed.

(** C2, as amended.  Both classifiers are functions of the lower-cased
    query.  The one of app.py always answers one of the four concrete
    domains, and Agriculture when no keyword occurs.  The one of
    main_app.py answers the same domain when some keyword occurs, and
    [None] when none does. *)
Theorem auto_select_agent_result (q q' : pystr) :
  In (App.auto_select_agent q) concrete_domains
  /\ (matches_keyword (lower q) = false -> App.auto_select_agent q = agriculture_agent)
  /\ (lower q = lower q' -> App.auto_select_agent q = App.auto_select_agent q')
  /\ (matches_keyword (lower q) = true ->
      MainApp.auto_select_agent q = Some (App.auto_select_agent q))
  /\ (matches_keyword (lower q) = false -> MainApp.auto_select_agent q = None)
  /\ (lower q = lower q' -> MainApp.auto_select_agent q = MainApp.auto_select_agent q').
Proof.
  unfold App.auto_select_agent, MainApp.auto_select_agent.
  split; [apply app_classify_domain|].
  split; [intros H; apply (classify_no_match _ H)|].
  split; [intros ->; reflexivity|].
  split; [apply classify_match|].
  split; [intros H; apply (classify_no_match _ H)|].
  intros ->; reflexivity.
Qed.

Lemma auto_select_agent_result_witness :
  App.auto_select_agent (str "Hello there") = agriculture_agent
  /\ App.auto_select_agent (str "Hello there") = App.auto_select_agent (str "HELLO THERE")
  /\ MainApp.auto_select_agent (str "Hello there") = None
  /\ MainApp.auto_select_agent (str "Hello there")
     = MainApp.auto_select_agent (str "HELLO THERE")
  /\ MainApp.auto_select_agent (str "Subsidy?") = Some (App.auto_select_agent (str "Subsidy?")).
Proof.
  destruct (auto_select_agent_result (str "Hello there") (str "HELLO THERE"))
    as (_ & H1 & H2 & _ & H3 & H4).
  destruct (auto_select_agent_result (str "Subsidy?") (str "Subsidy?"))
    as (_ & _ & _ & H5 & _).
  split; [apply H1; reflexivity|].
  split; [apply H2; reflexivity|].
  split; [apply H3; reflexivity|].
  split; [apply H4; reflexivity|].
  apply H5; reflexivity.
Defined.

(** C2, the claim as it stands fails on main_app.py: a query without any
    keyword gets no domain at all. *)
Lemma main_app_auto_select_agent_no_domain :
  matches_keyword (lower (str "Hello there")) = false
  /\ MainApp.auto_select_agent (str "Hello there") = None
  /\ ~ (exists d, In d concrete_domains
                  /\ MainApp.auto_select_agent (str "Hello there") = Some d).
Proof.
  split; [reflexivity|]. split; [reflexivity|].
  intros (d & _ & H). discriminate H.
Qed.

(** C3.  The keyword sets are tried in the order climate, agriculture,
    scheme, helpline, and the first one with a keyword in the lower-cased
    query decides, in both front ends; the query about government schemes
    goes to the Scheme domain. *)
Theorem classifier_priority (q : pystr) :
  (any_in climate_words (lower q) = true ->
     App.auto_select_agent q = climate_agent
     /\ MainApp.auto_select_agent q = Some climate_agent)
  /\ (any_in climate_words (lower q) = false ->
      any_in agriculture_words (lower q) = true ->
     App.auto_select_agent q = agriculture_agent
     /\ MainApp.auto_select_agent q = Some agriculture_agent)
  /\ (any_in climate_words (lower q) = false ->
      any_in agriculture_words (lower q) = false ->
      any_in scheme_words (lower q) = true ->
     App.auto_select_agent q = scheme_agent
     /\ MainApp.auto_select_agent q = Some scheme_agent)
  /\ (any_in climate_words (lower q) = false ->
      any_in agriculture_words (lower q) = false ->
      any_in scheme_words (lower q) = false ->
      any_in helpline_words (lower q) = true ->
     App.auto_select_agent q = kcc_agent
     /\ MainApp.auto_select_agent q = Some kcc_agent)
  /\ App.auto_select_agent Sample.schemes = scheme_agent
  /\ App.auto_select_agent Sample.schemes <> kcc_agent
  /\ MainApp.auto_select_agent Sample.schemes = Some scheme_agent
  /\ MainApp.auto_select_agent Sample.schemes <> Some kcc_agent.
Proof.
  unfold App.auto_select_agent, MainApp.auto_select_agent,
    App.classify, MainApp.classify.
  repeat split; try (intros; repeat match goal with H : _ = _ |- _ => rewrite H end;
                     reflexivity);
    try (vm_compute; reflexivity); vm_compute; discriminate.
Qed.

Lemma classifier_priority_witness :
  App.auto_select_agent (str "Any RAIN on my crop? The KCC scheme said so") = climate_agent
  /\ App.auto_select_agent (str "Crop subsidy from the helpline") = agriculture_agent
  /\ App.auto_select_agent (str "PMKisan helpline") = scheme_agent
  /\ MainApp.auto_select_agent (str "Number of the call centre") = Some kcc_agent.
Proof.
  split; [apply (classifier_priority
                   (str "Any RAIN on my crop? The KCC scheme said so")); reflexivity|].
  split; [apply (classifier_priority (str "Crop subsidy from the helpline")); reflexivity|].
  split; [apply (classifier_priority (str "PMKisan helpline")); reflexivity|].
  apply (classifier_priority (str "Number of the call centre")); reflexivity.
Defined.

(** ** Running the monad *)

Lemma bind_ret {G A B} (m : M G A) (k : A -> M G B) w a w' :
  m w = (Ret a, w') -> bind m k w = k a w'.
Proof. intros H. unfold bind. now rewrite H. Qed.

Lemma bind_raise {G A B} (m : M G A) (k : A -> M G B) w e w' :
  m w = (Raise e, w') -> bind m k w = (Raise e, w').
Proof. intros H. unfold bind. now rewrite H. Qed.

Lemma try_except_run {G A} (m : M G A) w r w' :
  m w = (r, w') -> try_except m w = (Ret r, w').
Proof. intros H. unfold try_except. now rewrite H. Qed.

Lemma count_app p (l1 l2 : list event) : count p (l1 ++ l2) = (count p l1 + count p l2)%nat.
Proof. unfold count. now rewrite List.filter_app, length_app. Qed.

Lemma count_snoc p (l : list event) e :
  count p (l ++ [e]) = (count p l + if p e then 1 else 0)%nat.
Proof. rewrite count_app. unfold count. simpl. now destruct (p e). Qed.

Lemma nonempty_app_l (a b : pystr) : a <> [] -> a ++ b <> [].
Proof. destruct a; [congruence | discriminate]. Qed.

Lemma startswith_app (a b : pystr) : startswith a (a ++ b) = true.
Proof.
  induction a as [|c a IH]; simpl; [reflexivity|].
  now rewrite N.eqb_refl, IH.
Qed.

(** ** The answer synthesizer *)

Lemma gemini_answer_run {G} (E : env) (prompt context : pystr) (w : world G) :
  App.gemini_answer E prompt context w =
  (Ret (answer_of (generate_content E (CHAT_MODEL E) (App.full_prompt prompt context) (log w))),
   mk_world (globals w) (files w)
     (log w ++ [EvGenerate (CHAT_MODEL E) (App.full_prompt prompt context)])).
Proof.
  unfold App.gemini_answer, catch, bind, call_generate, external, ret.
  destruct (generate_content E (CHAT_MODEL E) (App.full_prompt prompt context) (log w))
    as [[[|c t]|]|e]; reflexivity.
Qed.

Lemma answer_of_nonempty r : answer_of r <> [].
Proof. destruct r as [[[|c t]|]|e]; simpl; discriminate. Qed.

(** What a completed call of [chat_handler] returns: the history as it
    was, or the history with one turn whose answer is not empty. *)
Lemma chat_handler_returns E q choice file h w h' s w' :
  App.chat_handler E q choice file h w = (Ret (h', s), w') ->
  s = [] /\ (h' = h \/ exists answer, h' = h ++ [(q, answer)] /\ answer <> []).
Proof.
  unfold App.chat_handler.
  destruct (App.is_blank q).
  { unfold ret. intros [= <- <- <-]. auto. }
  set (sel := if bool_decide (choice = auto_detect) then _ else _).
  unfold bind at 1.
  destruct (App.get_agent E sel file w) as [[[a|]|e] w1]; [| |discriminate].
  - destruct (agent_truth a).
    + unfold bind at 1, try_except.
      destruct (App.retrieve a q w1) as [[ctx|e] w2].
      * unfold bind. rewrite gemini_answer_run. unfold ret. intros [= <- <- <-].
        split; [reflexivity|]. right. eexists. split; [reflexivity|].
        apply answer_of_nonempty.
      * unfold ret. intros [= <- <- <-]. split; [reflexivity|]. right.
        eexists. split; [reflexivity|]. discriminate.
    + unfold ret. intros [= <- <- <-]. split; [reflexivity|]. right.
      eexists. split; [reflexivity|]. discriminate.
  - unfold ret. intros [= <- <- <-]. split; [reflexivity|]. right.
    eexists. split; [reflexivity|]. discriminate.
Qed.

(** The run of [chat_handler] once the agent is there and the context
    has been retrieved. *)
Lemma chat_handler_answer E q choice file h w a w1 ctx w2 :
  App.is_blank q = false ->
  App.get_agent E
    (if bool_decide (choice = auto_detect) then App.auto_select_agent q else choice)
    file w = (Ret (Some a), w1) ->
  agent_truth a = true ->
  App.retrieve a q w1 = (Ret ctx, w2) ->
  App.chat_handler E q choice file h w =
  (Ret (h ++ [(q, answer_of (generate_content E (CHAT_MODEL E)
                               (App.full_prompt q ctx) (log w2)))], []),
   mk_world (globals w2) (files w2)
     (log w2 ++ [EvGenerate (CHAT_MODEL E) (App.full_prompt q ctx)])).
Proof.
  intros Hq Hget Ha Hctx. unfold App.chat_handler. rewrite Hq.
  rewrite (bind_ret _ _ _ _ _ Hget). rewrite Ha.
  rewrite (bind_ret _ _ _ _ _ (try_except_run _ _ _ _ Hctx)).
  unfold bind. rewrite gemini_answer_run. reflexivity.
Qed.

(** C6.  [gemini_answer] always returns: the marker followed by the
    message when the generation service raises, the fixed message when
    the service gives nothing, and never the empty string.  When the
    service raises, [chat_handler] records exactly one new turn, whose
    answer begins with the marker; no turn [chat_handler] adds has an
    empty answer. *)
Theorem gemini_answer_never_raises (E : env) (q choice : pystr)
    (file : option uploaded_file) (h : App.history) (w : world App.cache)
    (context : pystr) :
  (exists answer w',
      App.gemini_answer E q context w = (Ret answer, w')
      /\ answer <> []
      /\ (forall e, generate_content E (CHAT_MODEL E) (App.full_prompt q context) (log w)
                    = Raise e ->
                    answer = error_prefix ++ exn_msg e)
      /\ (generate_content E (CHAT_MODEL E) (App.full_prompt q context) (log w) = Ret None
          \/ generate_content E (CHAT_MODEL E) (App.full_prompt q context) (log w)
             = Ret (Some []) ->
          answer = no_response))
  /\ (forall a w1 w2 e,
        App.is_blank q = false ->
        App.get_agent E
          (if bool_decide (choice = auto_detect) then App.auto_select_agent q else choice)
          file w = (Ret (Some a), w1) ->
        agent_truth a = true ->
        App.retrieve a q w1 = (Ret context, w2) ->
        generate_content E (CHAT_MODEL E) (App.full_prompt q context) (log w2) = Raise e ->
        exists h' w3,
          App.chat_handler E q choice file h w = (Ret (h', []), w3)
          /\ h' = h ++ [(q, error_prefix ++ exn_msg e)]
          /\ length h' = S (length h)
          /\ startswith error_prefix (error_prefix ++ exn_msg e) = true)
  /\ (forall h' s w',
        App.chat_handler E q choice file h w = (Ret (h', s), w') ->
        forall turn, In turn h' -> In turn h \/ snd turn <> []).
Proof.
  split; [|split].
  - rewrite gemini_answer_run. do 2 eexists. split; [reflexivity|].
    split; [apply answer_of_nonempty|].
    split.
    + intros e ->. reflexivity.
    + intros [-> | ->]; reflexivity.
  - intros a w1 w2 e Hq Hget Ha Hctx Hgen.
    rewrite (chat_handler_answer _ _ _ _ _ _ _ _ _ _ Hq Hget Ha Hctx), Hgen.
    do 2 eexists. split; [reflexivity|]. split; [reflexivity|].
    split; [|apply startswith_app].
    rewrite length_app. simpl. lia.
  - intros h' s w' Hrun turn Hin.
    destruct (chat_handler_returns _ _ _ _ _ _ _ _ _ Hrun) as (_ & [-> | (ans & -> & Hans)]);
      [now left|].
    apply in_app_or in Hin. destruct Hin as [Hin | [<- | []]]; [now left | now right].
Qed.

Lemma gemini_answer_never_raises_witness :
  exists w3,
    App.chat_handler Sample.env_quota Sample.rainfall auto_detect None [] Sample.fresh_app
    = (Ret ([(Sample.rainfall, error_prefix ++ str "429 quota exceeded")], []), w3).
Proof.
  destruct (gemini_answer_never_raises Sample.env_quota Sample.rainfall auto_detect None []
              Sample.fresh_app (str "IMD rows about " ++ Sample.rainfall)) as (_ & H & _).
  edestruct H as (h' & w3 & Hrun & -> & _);
    [vm_compute; reflexivity .. | exists w3; exact Hrun].
Defined.

(** ** The blank query *)

(** C10.  On a query that is empty or made of white space only,
    [chat_handler] returns the history it was given and leaves the cache,
    the working area and the log of external calls as they were: no
    agent is built, nothing is retrieved, nothing is generated. *)
Theorem chat_handler_blank_query (E : env) (q choice : pystr)
    (file : option uploaded_file) (h : App.history) (w : world App.cache) :
  whitespace_only q = true ->
  App.chat_handler E q choice file h w = (Ret (h, []), w).
Proof.
  intros H. unfold App.chat_handler. now rewrite (is_blank_whitespace _ H).
Qed.

Lemma chat_handler_blank_query_witness :
  App.chat_handler Sample.env_ok (str "   ") auto_detect (Some Sample.upload)
    [(Sample.schemes, str "PM-KISAN")] Sample.fresh_app
  = (Ret ([(Sample.schemes, str "PM-KISAN")], []), Sample.fresh_app).
Proof. apply chat_handler_blank_query. reflexivity. Defined.

(** ** Context retrieval *)

Lemma app_retrieve_structured {G} (a : agent) (q : pystr) (w : world G) f :
  retrieve_context a = Some f ->
  App.retrieve a q w = (f q (log w), logged w (EvRetrieveContext (agent_id a) q)).
Proof.
  intros H. unfold App.retrieve, hasattr_retrieve_context, call_retrieve_context.
  rewrite H. reflexivity.
Qed.

Lemma app_retrieve_legacy {G} (a : agent) (q : pystr) (w : world G) g :
  retrieve_context a = None -> run a = Some g ->
  App.retrieve a q w = (g q (log w), logged w (EvRun (agent_id a) q)).
Proof.
  intros H Hr. unfold App.retrieve, hasattr_retrieve_context, call_run.
  rewrite H, Hr. reflexivity.
Qed.

(** In app.py an agent that has [retrieve_context] is never asked to
    [run], whatever [retrieve_context] does. *)
Lemma app_retrieve_never_runs_structured {G} (a : agent) (q : pystr) (w : world G) f :
  retrieve_context a = Some f ->
  count is_run (log (snd (App.retrieve a q w))) = count is_run (log w).
Proof.
  intros H. rewrite (app_retrieve_structured _ _ _ _ H). simpl.
  rewrite count_snoc. simpl. lia.
Qed.

Lemma main_retrieve_structured_ret {G} (a : agent) (q : pystr) (w : world G) f c :
  retrieve_context a = Some f -> f q (log w) = Ret c ->
  MainApp.retrieve a q w = (Ret c, logged w (EvRetrieveContext (agent_id a) q)).
Proof.
  intros H Hf. unfold MainApp.retrieve, catch, call_retrieve_context, external.
  rewrite H, Hf. reflexivity.
Qed.

Lemma main_retrieve_legacy {G} (a : agent) (q : pystr) (w : world G) g :
  retrieve_context a = None -> run a = Some g ->
  MainApp.retrieve a q w = (g q (log w), logged w (EvRun (agent_id a) q)).
Proof.
  intros H Hr. unfold MainApp.retrieve, catch, call_retrieve_context, call_run, raise.
  rewrite H, Hr. reflexivity.
Qed.

Lemma main_retrieve_raises {G} (a : agent) (q : pystr) (w : world G) e :
  capability_raises_plainly a q (log w) e ->
  exists w', MainApp.retrieve a q w = (Raise e, w') /\ globals w' = globals w.
Proof.
  intros [(f & H & Hf & Hc) | (g & H & Hr & Hg)].
  - unfold MainApp.retrieve, catch, call_retrieve_context, external, caught.
    rewrite H, Hf, Hc. eexists. split; reflexivity.
  - rewrite (main_retrieve_legacy _ _ _ _ H Hr), Hg. eexists. split; reflexivity.
Qed.

Lemma app_retrieve_raises {G} (a : agent) (q : pystr) (w : world G) e :
  capability_raises a q (log w) e ->
  exists w', App.retrieve a q w = (Raise e, w') /\ globals w' = globals w.
Proof.
  intros [(f & H & Hf) | (g & H & Hr & Hg)].
  - rewrite (app_retrieve_structured _ _ _ _ H), Hf. eexists. split; reflexivity.
  - rewrite (app_retrieve_legacy _ _ _ _ H Hr), Hg. eexists. split; reflexivity.
Qed.

(** [get_agent] of main_app.py leaves the conversation alone. *)
Lemma main_get_agent_globals {G} (E : env) (choice : pystr) (key : option pystr)
    (file : option uploaded_file) (w w' : world G) (r : result (option agent)) :
  MainApp.get_agent E choice key file w = (r, w') -> globals w' = globals w.
Proof.
  unfold MainApp.get_agent, bind, call_builder, external, write_upload, emit, ret.
  destruct file as [f|]; simpl;
    repeat case_bool_decide;
    try destruct key as [[|c k]|]; simpl;
    intros [= <- <-]; reflexivity.
Qed.

(** C4, on main_app.py.  The agent has both capabilities, and its
    [retrieve_context] fails with an [AttributeError] of its own.  The
    [except AttributeError] clause takes that for a missing capability:
    [run] is called as well and its answer becomes the context.  On the
    same agent app.py calls [retrieve_context] only. *)
Theorem main_app_retrieve_attribute_error :
  hasattr_retrieve_context Sample.unset_retriever = true
  /\ MainApp.retrieve Sample.unset_retriever Sample.rainfall Sample.fresh_main
     = (Ret (str "combined answer"),
        mk_world [] ∅ [EvRetrieveContext 4 Sample.rainfall; EvRun 4 Sample.rainfall])
  /\ count is_retrieve_context
       (log (snd (MainApp.submit Sample.env_unset climate_agent None Sample.rainfall
                    Sample.fresh_main))) = 1%nat
  /\ count is_run
       (log (snd (MainApp.submit Sample.env_unset climate_agent None Sample.rainfall
                    Sample.fresh_main))) = 1%nat
  /\ fst (MainApp.submit Sample.env_unset climate_agent None Sample.rainfall
            Sample.fresh_main) = Ret MainApp.Answered
  /\ count is_run
       (log (snd (App.chat_handler Sample.env_unset Sample.rainfall climate_agent None []
                    Sample.fresh_app))) = 0%nat.
Proof. repeat split. Qed.

(** C5, as amended.  In app.py an exception raised by the capability in
    use, [retrieve_context] or [run], ends in one recorded turn whose
    answer is the retrieval marker followed by the message of the
    exception, and [chat_handler] returns.  In main_app.py the retrieval
    step has no such handler: an exception raised by [run], or one other
    than [AttributeError] raised by [retrieve_context], leaves the submit
    block as it is, and no turn is recorded. *)
Theorem retrieval_exception (E : env) (q choice : pystr)
    (file : option uploaded_file) (a : agent) (e : exn) :
  (forall (h : App.history) (w w1 : world App.cache),
      App.is_blank q = false ->
      App.get_agent E
        (if bool_decide (choice = auto_detect) then App.auto_select_agent q else choice)
        file w = (Ret (Some a), w1) ->
      agent_truth a = true ->
      capability_raises a q (log w1) e ->
      exists w2,
        App.chat_handler E q choice file h w
        = (Ret (h ++ [(q, error_retrieving ++ exn_msg e)], []), w2))
  /\ (forall (w w1 : world MainApp.history) (selected : pystr),
      truthy_str q = true ->
      (if bool_decide (choice = auto_detect)
       then MainApp.auto_select_agent q else Some choice) = Some selected ->
      truthy_str selected = true ->
      MainApp.get_agent E selected (DATA_GOV_API_KEY E) file w = (Ret (Some a), w1) ->
      agent_truth a = true ->
      capability_raises_plainly a q (log w1) e ->
      exists w2,
        MainApp.submit E choice file q w = (Raise e, w2) /\ globals w2 = globals w).
Proof.
  split.
  - intros h w w1 Hq Hget Ha Hraise.
    destruct (app_retrieve_raises a q w1 e Hraise) as (w2 & Hr & _).
    exists w2. unfold App.chat_handler. rewrite Hq.
    rewrite (bind_ret _ _ _ _ _ Hget), Ha.
    rewrite (bind_ret _ _ _ _ _ (try_except_run _ _ _ _ Hr)). reflexivity.
  - intros w w1 selected Hq Hsel Htruthy Hget Ha Hraise.
    destruct (main_retrieve_raises a q w1 e Hraise) as (w2 & Hr & Hg).
    exists w2. unfold MainApp.submit. rewrite Hq, Hsel, Htruthy.
    change (negb true) with false. cbv iota.
    rewrite (bind_ret _ _ _ _ _ Hget), Ha.
    rewrite (bind_raise _ _ _ _ _ Hr). split; [reflexivity|].
    rewrite Hg. apply (main_get_agent_globals _ _ _ _ _ _ _ Hget).
Qed.

Lemma retrieval_exception_witness :
  (exists w2,
      App.chat_handler Sample.env_ok (str "What is the rice yield in Maharashtra?")
        auto_detect None [] Sample.fresh_app
      = (Ret ([(str "What is the rice yield in Maharashtra?",
                error_retrieving ++ str "index unavailable")], []), w2))
  /\ (exists w2,
      MainApp.submit Sample.env_ok auto_detect None
        (str "What is the rice yield in Maharashtra?") Sample.fresh_main
      = (Raise (mk_exn OtherException (str "index unavailable")), w2)
      /\ globals w2 = []).
Proof.
  destruct (retrieval_exception Sample.env_ok (str "What is the rice yield in Maharashtra?")
              auto_detect None Sample.broken_index
              (mk_exn OtherException (str "index unavailable"))) as (HA & HM).
  split.
  - eapply (HA [] Sample.fresh_app); [vm_compute; reflexivity .. |].
    left. eexists. split; [reflexivity|]. reflexivity.
  - eapply (HM Sample.fresh_main); [vm_compute; reflexivity .. |].
    left. eexists. split; [reflexivity|]. split; reflexivity.
Defined.

(** C5, the claim as it stands fails on main_app.py: the exception of
    the agriculture agent's [retrieve_context] comes out of the submit
    block unconverted, and the conversation stays empty. *)
Lemma main_app_retrieval_exception_propagates :
  fst (MainApp.submit Sample.env_ok agriculture_agent None
         (str "What is the rice yield in Maharashtra?") Sample.fresh_main)
  = Raise (mk_exn OtherException (str "index unavailable"))
  /\ globals (snd (MainApp.submit Sample.env_ok agriculture_agent None
                     (str "What is the rice yield in Maharashtra?") Sample.fresh_main))
     = [].
Proof. split; reflexivity. Qed.

(** ** The agent cache of app.py *)

Lemma after_staging_globals {G} (file : option uploaded_file) (w : world G) :
  globals (after_staging file w) = globals w.
Proof. destruct file; reflexivity. Qed.

Lemma after_staging_builds {G} (file : option uploaded_file) (w : world G) :
  count is_build (log (after_staging file w)) = count is_build (log w).
Proof.
  destruct file; [|reflexivity]. simpl. rewrite count_snoc. simpl. lia.
Qed.

Lemma build_agent_spec (E : env) (choice : pystr) (temp_path : option pystr)
    (w : world App.cache) :
  App.build_agent E choice temp_path w =
  match builder_call E choice temp_path with
  | Some (b, arg) => (builder_fun E b arg (log w), logged w (EvBuild b arg))
  | None => (Ret None, w)
  end.
Proof.
  unfold App.build_agent, builder_call.
  repeat case_bool_decide; try reflexivity.
  destruct (DATA_GOV_API_KEY E) as [[|c k]|]; reflexivity.
Qed.

(** The first half of [get_agent]: the upload is written, then the cache
    is consulted. *)
Lemma get_agent_unfold (E : env) (choice : pystr) (file : option uploaded_file)
    (w : world App.cache) :
  App.get_agent E choice file w =
  match globals w !! App.cache_key choice (staged file) with
  | Some a => (Ret (Some a), after_staging file w)
  | None =>
      match App.build_agent E choice (staged file) (after_staging file w) with
      | (Ret (Some a), w1) =>
          (Ret (Some a),
           if agent_truth a
           then mk_world (<[App.cache_key choice (staged file) := a]> (globals w))
                         (files w1) (log w1)
           else w1)
      | (Ret None, w1) => (Ret None, w1)
      | (Raise e, w1) => (Raise e, w1)
      end
  end.
Proof.
  unfold App.get_agent, bind, write_upload, get_globals, put_globals, ret.
  destruct file as [f|]; cbn [staged after_staging snd globals write_upload].
  - destruct (globals w !! _) as [a|]; [reflexivity|].
    match goal with |- context [App.build_agent ?E ?c ?t ?w0] =>
      destruct (App.build_agent E c t w0) as [[[a|]|e] w1] end; try reflexivity.
    cbn [truthy_agent]. destruct (agent_truth a); reflexivity.
  - destruct (globals w !! _) as [a|]; [reflexivity|].
    destruct (App.build_agent E choice None w) as [[[a|]|e] w1]; try reflexivity.
    cbn [truthy_agent]. destruct (agent_truth a); reflexivity.
Qed.

Lemma get_agent_hit (E : env) (choice : pystr) (file : option uploaded_file)
    (w : world App.cache) (a : agent) :
  globals w !! App.cache_key choice (staged file) = Some a ->
  App.get_agent E choice file w = (Ret (Some a), after_staging file w).
Proof. intros H. rewrite get_agent_unfold, H. reflexivity. Qed.

(** A miss: the outcome is the builder's, and only a truthy agent is
    stored. *)
Lemma get_agent_miss (E : env) (choice : pystr) (file : option uploaded_file)
    (w : world App.cache) :
  globals w !! App.cache_key choice (staged file) = None ->
  App.get_agent E choice file w =
  match builder_call E choice (staged file) with
  | Some (b, arg) =>
      let w0 := after_staging file w in
      let w1 := logged w0 (EvBuild b arg) in
      match builder_fun E b arg (log w0) with
      | Ret (Some a) =>
          (Ret (Some a),
           if agent_truth a
           then mk_world (<[App.cache_key choice (staged file) := a]> (globals w))
                         (files w1) (log w1)
           else w1)
      | Ret None => (Ret None, w1)
      | Raise e => (Raise e, w1)
      end
  | None => (Ret None, after_staging file w)
  end.
Proof.
  intros H. rewrite get_agent_unfold, H, build_agent_spec.
  destruct (builder_call E choice (staged file)) as [[b arg]|]; [|reflexivity].
  cbv zeta.
  destruct (builder_fun E b arg (log (after_staging file w))) as [[a|]|e]; reflexivity.
Qed.

(** *** The invariant of the cache *)

Lemma cache_inv_empty (E : env) : cache_inv E ∅.
Proof. intros k a H. rewrite lookup_empty in H. discriminate. Qed.

Lemma builder_call_not_kcc (E : env) (choice : pystr) (temp_path : option pystr)
    (b : builder) (arg : pystr) :
  builder_call E choice temp_path = Some (b, arg) ->
  truthy_opt (DATA_GOV_API_KEY E) = false ->
  startswith kcc_agent (App.cache_key choice temp_path) = false.
Proof.
  unfold builder_call, App.cache_key. intros Hcall Hkey.
  repeat case_bool_decide; subst; try reflexivity; try discriminate.
  destruct (DATA_GOV_API_KEY E) as [key|]; [|discriminate].
  simpl in Hkey. rewrite Hkey in Hcall. discriminate.
Qed.

Lemma get_agent_inv (E : env) (choice : pystr) (file : option uploaded_file)
    (w w' : world App.cache) (r : result (option agent)) :
  cache_inv E (globals w) ->
  App.get_agent E choice file w = (r, w') ->
  cache_inv E (globals w').
Proof.
  intros Hinv. rewrite get_agent_unfold, build_agent_spec.
  destruct (globals w !! _) as [a0|] eqn:Hlook.
  { intros [= <- <-]. now rewrite after_staging_globals. }
  destruct (builder_call E choice (staged file)) as [[b arg]|] eqn:Hcall.
  2:{ intros [= <- <-]. now rewrite after_staging_globals. }
  destruct (builder_fun E b arg _) as [[a|]|e].
  2,3: intros [= <- <-]; simpl; now rewrite after_staging_globals.
  destruct (agent_truth a) eqn:Ha.
  2:{ intros [= <- <-]; simpl; now rewrite after_staging_globals. }
  intros [= <- <-]. simpl. intros k a1 Hk.
  destruct (decide (App.cache_key choice (staged file) = k)) as [<-|Hne].
  - rewrite lookup_insert_eq in Hk. injection Hk as <-.
    split; [exact Ha|]. apply (builder_call_not_kcc _ _ _ _ _ Hcall).
  - rewrite lookup_insert_ne in Hk by exact Hne. apply (Hinv _ _ Hk).
Qed.

Lemma app_retrieve_globals {G} (a : agent) (q : pystr) (w w' : world G) (r : result pystr) :
  App.retrieve a q w = (r, w') -> globals w' = globals w.
Proof.
  unfold App.retrieve, call_retrieve_context, call_run, external, raise.
  destruct (hasattr_retrieve_context a), (retrieve_context a), (run a);
    intros [= <- <-]; reflexivity.
Qed.

(** [chat_handler] touches the cache through [get_agent] only. *)
Lemma chat_handler_globals (E : env) (q choice : pystr) (file : option uploaded_file)
    (h : App.history) (w w' : world App.cache) (r : result (App.history * pystr)) :
  App.chat_handler E q choice file h w = (r, w') ->
  globals w' = globals w
  \/ exists selected r1 w1,
       App.get_agent E selected file w = (r1, w1) /\ globals w' = globals w1.
Proof.
  unfold App.chat_handler.
  destruct (App.is_blank q).
  { intros [= <- <-]. now left. }
  set (sel := if bool_decide (choice = auto_detect) then _ else _).
  intros Hrun. right. exists sel.
  unfold bind at 1 in Hrun.
  destruct (App.get_agent E sel file w) as [[[a|]|e] w1] eqn:Hget;
    do 2 eexists; (split; [reflexivity|]).
  - destruct (agent_truth a).
    + unfold bind at 1, try_except in Hrun.
      destruct (App.retrieve a q w1) as [[ctx|e] w2] eqn:Hr.
      * unfold bind in Hrun. rewrite gemini_answer_run in Hrun.
        injection Hrun as <- <-. simpl. apply (app_retrieve_globals _ _ _ _ _ Hr).
      * injection Hrun as <- <-. apply (app_retrieve_globals _ _ _ _ _ Hr).
    + now injection Hrun as <- <-.
  - now injection Hrun as <- <-.
  - now injection Hrun as <- <-.
Qed.

Lemma reachable_inv (E : env) (w : world App.cache) :
  reachable E w -> cache_inv E (globals w).
Proof.
  induction 1 as [fs | w choice file r w' _ IH Hget | w q choice file h r w' _ IH Hrun].
  - apply cache_inv_empty.
  - apply (get_agent_inv _ _ _ _ _ _ IH Hget).
  - destruct (chat_handler_globals _ _ _ _ _ _ _ _ Hrun) as [-> | (sel & r1 & w1 & Hget & ->)];
      [exact IH|].
    apply (get_agent_inv _ _ _ _ _ _ IH Hget).
Qed.

(** *** Keys *)

Lemma temp_path_truthy (f : uploaded_file) : truthy_str (App.temp_path_of f) = true.
Proof. reflexivity. Qed.

Lemma temp_path_not_default (f : uploaded_file) : App.temp_path_of f <> str "default".
Proof.
  intros H. apply (f_equal (fun s => nth 1 s 0)) in H. discriminate H.
Qed.

Lemma dataset_injective (file file' : option uploaded_file) :
  or_else (staged file) (str "default") = or_else (staged file') (str "default") ->
  staged file = staged file'.
Proof.
  destruct file as [f|], file' as [f'|]; simpl; rewrite ?temp_path_truthy; intros H.
  - now rewrite H.
  - now apply temp_path_not_default in H.
  - symmetry in H. now apply temp_path_not_default in H.
  - reflexivity.
Qed.

(** The key of the cache tells the (domain, dataset) pairs apart. *)
Lemma cache_key_injective (c c' : pystr) (file file' : option uploaded_file) :
  In c concrete_domains -> In c' concrete_domains ->
  App.cache_key c (staged file) = App.cache_key c' (staged file') ->
  c = c' /\ staged file = staged file'.
Proof.
  unfold concrete_domains, App.cache_key. simpl In.
  intros [<-|[<-|[<-|[<-|[]]]]] [<-|[<-|[<-|[<-|[]]]]] H;
    try (exfalso; apply (f_equal (fun s => nth 0 s 0)) in H; discriminate H);
    (split; [reflexivity|]);
    apply app_inv_head in H; apply app_inv_head in H;
    apply (dataset_injective _ _ H).
Qed.

(** *** Hits and misses *)

(** C9, as amended.  On a hit [get_agent] returns the cached instance,
    leaves the cache as it is and calls no builder.  The upload, when
    there is one, is written to the working area before the cache is
    looked at, on a hit as on a miss; without an upload nothing at all
    happens. *)
Theorem get_agent_cache_hit (E : env) (choice : pystr) (file : option uploaded_file)
    (w : world App.cache) (a : agent) :
  globals w !! App.cache_key choice (staged file) = Some a ->
  exists w',
    App.get_agent E choice file w = (Ret (Some a), w')
    /\ globals w' = globals w
    /\ count is_build (log w') = count is_build (log w)
    /\ match file with
       | None => w' = w
       | Some f =>
           w' = mk_world (globals w)
                  (<[App.temp_path_of f := uf_read f (log w)]> (files w))
                  (log w ++ [EvWrite (App.temp_path_of f) (uf_read f (log w))])
           /\ count is_write (log w') = S (count is_write (log w))
       end.
Proof.
  intros H. exists (after_staging file w).
  split; [apply (get_agent_hit _ _ _ _ _ H)|].
  split; [apply after_staging_globals|].
  split; [apply after_staging_builds|].
  destruct file as [f|]; [|reflexivity].
  split; [reflexivity|]. simpl. rewrite count_snoc. simpl. lia.
Qed.

Lemma get_agent_cache_hit_witness :
  exists w',
    App.get_agent Sample.env_ok climate_agent None
      (mk_world {[ App.cache_key climate_agent None := Sample.structured ]} ∅ [])
    = (Ret (Some Sample.structured), w')
    /\ w' = mk_world {[ App.cache_key climate_agent None := Sample.structured ]} ∅ [].
Proof.
  destruct (get_agent_cache_hit Sample.env_ok climate_agent None
              (mk_world {[ App.cache_key climate_agent None := Sample.structured ]} ∅ [])
              Sample.structured) as (w' & H & _ & _ & Hw).
  - vm_compute. reflexivity.
  - exists w'. split; [exact H | exact Hw].
Defined.

(** C9, the claim as it stands fails: the second lookup with the same
    upload is a hit, and the upload is written again. *)
Lemma cache_hit_writes_upload_again :
  let w1 := snd (App.get_agent Sample.env_ok climate_agent (Some Sample.upload)
                   Sample.fresh_app) in
  let w2 := snd (App.get_agent Sample.env_ok climate_agent (Some Sample.upload) w1) in
  globals w1 !! App.cache_key climate_agent (staged (Some Sample.upload))
  = Some Sample.structured
  /\ fst (App.get_agent Sample.env_ok climate_agent (Some Sample.upload) w1)
     = Ret (Some Sample.structured)
  /\ count is_build (log w2) = count is_build (log w1)
  /\ count is_write (log w1) = 1%nat
  /\ count is_write (log w2) = 2%nat.
Proof. vm_compute. repeat split. Qed.

Lemma after_staging_log {G} (file : option uploaded_file) (w : world G) :
  log (after_staging file w) = log w ++ staging_events file (log w).
Proof. destruct file; simpl; [reflexivity | now rewrite app_nil_r]. Qed.

(** C1.  When a lookup gives a usable agent, the next lookup with the
    same choice and upload gives the very same instance.  If the key was
    not cached before, the two calls together made one builder call: that
    of the builder of the chosen domain, on the dataset of the key, and
    the instance is what it returned.  If the key was cached, they made
    none.  The cache has that instance, and nothing else, under the key,
    and among the four domains two different (domain, dataset) pairs
    never have the same key. *)
Theorem get_agent_twice (E : env) (choice : pystr) (file : option uploaded_file)
    (w w1 : world App.cache) (a : agent) :
  App.get_agent E choice file w = (Ret (Some a), w1) ->
  agent_truth a = true ->
  exists w2,
    App.get_agent E choice file w1 = (Ret (Some a), w2)
    /\ globals w2 = globals w1
    /\ count is_build (log w2)
       = (count is_build (log w)
          + match globals w !! App.cache_key choice (staged file) with
            | Some _ => 0
            | None => 1
            end)%nat
    /\ match globals w !! App.cache_key choice (staged file) with
       | Some a0 =>
           a0 = a
           /\ log w2 = log w ++ staging_events file (log w)
                       ++ staging_events file (log w1)
       | None =>
           exists b arg,
             builder_call E choice (staged file) = Some (b, arg)
             /\ builder_fun E b arg (log w ++ staging_events file (log w)) = Ret (Some a)
             /\ log w2 = log w ++ staging_events file (log w) ++ [EvBuild b arg]
                         ++ staging_events file (log w1)
       end
    /\ (forall a', globals w2 !! App.cache_key choice (staged file) = Some a' <-> a' = a)
    /\ (forall choice' file',
          In choice concrete_domains -> In choice' concrete_domains ->
          App.cache_key choice' (staged file') = App.cache_key choice (staged file) ->
          choice' = choice /\ staged file' = staged file).
Proof.
  intros Hget Ha.
  assert (Hcached : globals w1 !! App.cache_key choice (staged file) = Some a
                    /\ match globals w !! App.cache_key choice (staged file) with
                       | Some a0 =>
                           a0 = a /\ log w1 = log w ++ staging_events file (log w)
                       | None =>
                           exists b arg,
                             builder_call E choice (staged file) = Some (b, arg)
                             /\ builder_fun E b arg (log w ++ staging_events file (log w))
                                = Ret (Some a)
                             /\ log w1 = log w ++ staging_events file (log w)
                                         ++ [EvBuild b arg]
                       end).
  { destruct (globals w !! App.cache_key choice (staged file)) as [a0|] eqn:Hlook.
    - rewrite (get_agent_hit _ _ _ _ _ Hlook) in Hget. injection Hget as <- <-.
      rewrite after_staging_globals, after_staging_log. auto.
    - rewrite (get_agent_miss _ _ _ _ Hlook) in Hget.
      destruct (builder_call E choice (staged file)) as [[b arg]|]; [|discriminate].
      cbv zeta in Hget. rewrite after_staging_log in Hget.
      destruct (builder_fun E b arg _) as [[a1|]|e] eqn:Hb; try discriminate.
      injection Hget as -> <-. rewrite Ha. simpl.
      split; [apply lookup_insert_eq|].
      exists b, arg. rewrite after_staging_log, <- app_assoc. auto. }
  destruct Hcached as (Hlook1 & Htrace).
  exists (after_staging file w1).
  split; [apply (get_agent_hit _ _ _ _ _ Hlook1)|].
  split; [apply after_staging_globals|].
  split.
  { rewrite after_staging_builds.
    destruct (globals w !! App.cache_key choice (staged file)) as [a0|].
    - destruct Htrace as [_ ->]. rewrite <- after_staging_log, after_staging_builds. lia.
    - destruct Htrace as (b & arg & _ & _ & ->).
      rewrite app_assoc, count_snoc, <- after_staging_log, after_staging_builds.
      simpl. lia. }
  split.
  { rewrite after_staging_log.
    destruct (globals w !! App.cache_key choice (staged file)) as [a0|].
    - destruct Htrace as [-> ->]. split; [reflexivity|]. now rewrite <- !app_assoc.
    - destruct Htrace as (b & arg & Hcall & Hb & ->). exists b, arg.
      split; [exact Hcall|]. split; [exact Hb|]. now rewrite <- !app_assoc. }
  split.
  - intros a'. rewrite after_staging_globals, Hlook1. split; congruence.
  - intros choice' file' Hc Hc' Hkey. apply (cache_key_injective _ _ _ _ Hc' Hc Hkey).
Qed.

Lemma get_agent_twice_witness :
  exists w1 w2,
    App.get_agent Sample.env_ok scheme_agent (Some Sample.upload) Sample.fresh_app
    = (Ret (Some Sample.legacy), w1)
    /\ App.get_agent Sample.env_ok scheme_agent (Some Sample.upload) w1
       = (Ret (Some Sample.legacy), w2)
    /\ count is_build (log w2) = 1%nat
    /\ log w2 = [EvWrite (str "data/rain_2020.csv") (str "year,mm");
                 EvBuild BuildScheme (str "data/rain_2020.csv");
                 EvWrite (str "data/rain_2020.csv") (str "year,mm")].
Proof.
  eexists.
  edestruct (get_agent_twice Sample.env_ok scheme_agent (Some Sample.upload)
               Sample.fresh_app) as (w2 & H2 & _ & Hcount & Htrace & _);
    [vm_compute; reflexivity | reflexivity |].
  exists w2. split; [reflexivity|]. split; [exact H2|]. split; [exact Hcount|].
  destruct Htrace as (b & arg & Hcall & _ & ->).
  injection Hcall as <- <-. reflexivity.
Defined.

(** C7.  A lookup that fails, because the builder raised or because what
    came back is [None] or falsy (the KCC domain without its credential
    included), leaves the cache as it was, with no entry under the key.
    The next lookup with the same choice and upload goes to the builder
    again: what it returns is what the builder answers this time. *)
Theorem failed_lookup_not_cached (E : env) (choice : pystr)
    (file : option uploaded_file) (w w1 : world App.cache) (r : result (option agent)) :
  reachable E w ->
  App.get_agent E choice file w = (r, w1) ->
  lookup_failed r ->
  globals w1 = globals w
  /\ globals w1 !! App.cache_key choice (staged file) = None
  /\ match builder_call E choice (staged file) with
     | Some (b, arg) =>
         fst (App.get_agent E choice file w1)
         = builder_fun E b arg (log (after_staging file w1))
         /\ count is_build (log (snd (App.get_agent E choice file w1)))
            = S (count is_build (log w1))
     | None => fst (App.get_agent E choice file w1) = Ret None
     end.
Proof.
  intros Hreach Hget Hfail.
  pose proof (reachable_inv _ _ Hreach) as Hinv.
  assert (Hmiss : globals w !! App.cache_key choice (staged file) = None).
  { destruct (globals w !! App.cache_key choice (staged file)) as [a0|] eqn:Hlook;
      [|reflexivity].
    rewrite (get_agent_hit _ _ _ _ _ Hlook) in Hget. injection Hget as <- <-.
    simpl in Hfail. destruct (Hinv _ _ Hlook) as [Ha _]. congruence. }
  assert (Hsame : globals w1 = globals w).
  { rewrite (get_agent_miss _ _ _ _ Hmiss) in Hget.
    destruct (builder_call E choice (staged file)) as [[b arg]|].
    - cbv zeta in Hget.
      destruct (builder_fun E b arg _) as [[a|]|e]; injection Hget as <- <-;
        simpl in Hfail; try rewrite Hfail; simpl; apply after_staging_globals.
    - injection Hget as <- <-. apply after_staging_globals. }
  split; [exact Hsame|].
  assert (Hmiss1 : globals w1 !! App.cache_key choice (staged file) = None)
    by now rewrite Hsame.
  split; [exact Hmiss1|].
  rewrite (get_agent_miss _ _ _ _ Hmiss1).
  destruct (builder_call E choice (staged file)) as [[b arg]|]; [|reflexivity].
  cbv zeta.
  destruct (builder_fun E b arg _) as [[a|]|e]; (split; [reflexivity|]);
    try destruct (agent_truth a); simpl;
    rewrite count_snoc, after_staging_builds; simpl; lia.
Qed.

Lemma failed_lookup_not_cached_witness :
  fst (App.get_agent Sample.env_flaky climate_agent None Sample.fresh_app)
  = Raise (mk_exn OtherException (str "embedding service down"))
  /\ fst (App.get_agent Sample.env_flaky climate_agent None
            (snd (App.get_agent Sample.env_flaky climate_agent None Sample.fresh_app)))
     = Ret (Some Sample.structured).
Proof.
  split; [reflexivity|].
  destruct (failed_lookup_not_cached Sample.env_flaky climate_agent None Sample.fresh_app
              (snd (App.get_agent Sample.env_flaky climate_agent None Sample.fresh_app))
              (fst (App.get_agent Sample.env_flaky climate_agent None Sample.fresh_app)))
    as (_ & _ & H).
  - apply reach_start.
  - reflexivity.
  - exact I.
  - exact (proj1 H).
Defined.

(** ** The KCC domain without its credential *)

Lemma builder_call_kcc (E : env) (temp_path : option pystr) :
  truthy_opt (DATA_GOV_API_KEY E) = false ->
  builder_call E kcc_agent temp_path = None.
Proof.
  intros Hkey. unfold builder_call.
  repeat (case_bool_decide; [discriminate|]).
  destruct (DATA_GOV_API_KEY E) as [key|]; [|now case_bool_decide].
  simpl in Hkey. rewrite Hkey. now case_bool_decide.
Qed.

Lemma app_get_agent_kcc (E : env) (file : option uploaded_file) (w : world App.cache) :
  truthy_opt (DATA_GOV_API_KEY E) = false ->
  reachable E w ->
  App.get_agent E kcc_agent file w = (Ret None, after_staging file w).
Proof.
  intros Hkey Hreach.
  destruct (globals w !! App.cache_key kcc_agent (staged file)) as [a|] eqn:Hlook.
  - destruct (reachable_inv _ _ Hreach _ _ Hlook) as [_ Hk].
    specialize (Hk Hkey). unfold App.cache_key in Hk.
    rewrite startswith_app in Hk. discriminate.
  - rewrite (get_agent_miss _ _ _ _ Hlook), (builder_call_kcc _ _ Hkey). reflexivity.
Qed.

Lemma main_get_agent_kcc {G} (E : env) (file : option uploaded_file) (w : world G) :
  truthy_opt (DATA_GOV_API_KEY E) = false ->
  exists w1,
    MainApp.get_agent E kcc_agent (DATA_GOV_API_KEY E) file w = (Ret None, w1)
    /\ count is_build (log w1) = count is_build (log w)
    /\ globals w1 = globals w.
Proof.
  intros Hkey. unfold MainApp.get_agent.
  repeat (case_bool_decide; [discriminate|]).
  case_bool_decide; [|congruence].
  unfold bind, write_upload, emit, ret.
  destruct file as [f|], (DATA_GOV_API_KEY E) as [key|];
    simpl in Hkey; try rewrite Hkey; simpl;
    eexists; (split; [reflexivity|]); simpl;
    rewrite ?count_snoc; simpl; split; (lia || reflexivity).
Qed.

(** C8, as amended.  Without the credential a lookup of the KCC domain
    gives [None] and no builder is called.  In app.py [chat_handler]
    then records one turn that says the agent could not be initialized,
    and returns.  In main_app.py the submit block shows an error and
    stops the run; the conversation is left as it was. *)
Theorem missing_credential (E : env) (q choice : pystr) (file : option uploaded_file) :
  truthy_opt (DATA_GOV_API_KEY E) = false ->
  (forall (w : world App.cache) (h : App.history),
      reachable E w ->
      App.get_agent E kcc_agent file w = (Ret None, after_staging file w)
      /\ count is_build (log (after_staging file w)) = count is_build (log w)
      /\ (App.is_blank q = false ->
          (if bool_decide (choice = auto_detect)
           then App.auto_select_agent q else choice) = kcc_agent ->
          App.chat_handler E q choice file h w
          = (Ret (h ++ [(q, failed_to_initialize ++ kcc_agent)], []),
             after_staging file w)))
  /\ (forall (w : world MainApp.history),
      exists w1,
        MainApp.get_agent E kcc_agent (DATA_GOV_API_KEY E) file w = (Ret None, w1)
        /\ count is_build (log w1) = count is_build (log w)
        /\ (truthy_str q = true ->
            (if bool_decide (choice = auto_detect)
             then MainApp.auto_select_agent q else Some choice) = Some kcc_agent ->
            MainApp.submit E choice file q w
            = (Ret MainApp.Stopped, logged w1 (EvUi UiError MainApp.failed_selected))
            /\ globals (logged w1 (EvUi UiError MainApp.failed_selected)) = globals w)).
Proof.
  intros Hkey. split.
  - intros w h Hreach.
    pose proof (app_get_agent_kcc E file w Hkey Hreach) as Hget.
    split; [exact Hget|]. split; [apply after_staging_builds|].
    intros Hq Hsel. unfold App.chat_handler. rewrite Hq, Hsel.
    rewrite (bind_ret _ _ _ _ _ Hget). reflexivity.
  - intros w. destruct (main_get_agent_kcc E file w Hkey) as (w1 & Hget & Hcount & Hg).
    exists w1. split; [exact Hget|]. split; [exact Hcount|].
    intros Hq Hsel. unfold MainApp.submit. rewrite Hq, Hsel.
    change (negb true) with false. cbv iota.
    change (truthy_str kcc_agent) with true. cbv iota.
    rewrite (bind_ret _ _ _ _ _ Hget). split; [reflexivity | exact Hg].
Qed.

Lemma missing_credential_witness :
  App.chat_handler Sample.env_no_key (str "Give me the KCC helpline number") auto_detect
    None [] Sample.fresh_app
  = (Ret ([(str "Give me the KCC helpline number", failed_to_initialize ++ kcc_agent)], []),
     Sample.fresh_app)
  /\ fst (MainApp.submit Sample.env_no_key auto_detect None
            (str "Give me the KCC helpline number") Sample.fresh_main)
     = Ret MainApp.Stopped.
Proof.
  destruct (missing_credential Sample.env_no_key (str "Give me the KCC helpline number")
              auto_detect None eq_refl) as (HA & HM).
  split.
  - apply (HA Sample.fresh_app []); [apply reach_start | reflexivity | reflexivity].
  - destruct (HM Sample.fresh_main) as (w1 & _ & _ & H).
    destruct H as [H _]; [reflexivity | reflexivity |]. now rewrite H.
Defined.

(** C8, the claim as it stands fails on main_app.py: the failure is shown
    as an error, the run is stopped, and no turn is recorded. *)
Lemma main_app_missing_credential_no_turn :
  DATA_GOV_API_KEY Sample.env_no_key = None
  /\ fst (MainApp.submit Sample.env_no_key kcc_agent None
            (str "Give me the KCC helpline number") Sample.fresh_main)
     = Ret MainApp.Stopped
  /\ globals (snd (MainApp.submit Sample.env_no_key kcc_agent None
                     (str "Give me the KCC helpline number") Sample.fresh_main))
     = []
  /\ log (snd (MainApp.submit Sample.env_no_key kcc_agent None
                 (str "Give me the KCC helpline number") Sample.fresh_main))
     = [EvUi UiError MainApp.missing_key; EvUi UiError MainApp.failed_selected].
Proof. repeat split. Qed.

(** * Further properties *)

(** ** Substring matching *)

Lemma startswith_extend (w q post : pystr) :
  startswith w q = true -> startswith w (q ++ post) = true.
Proof.
  revert q. induction w as [|a w IH]; intros [|b q]; simpl; try easy.
  intros [Hab Hw]%andb_prop. rewrite Hab. simpl. auto.
Qed.

Lemma contains_empty (q : pystr) : contains [] q = true.
Proof. destruct q; reflexivity. Qed.

Lemma contains_extend_r (w q post : pystr) :
  contains w q = true -> contains w (q ++ post) = true.
Proof.
  induction q as [|c q IH]; simpl.
  - destruct w; [intros _; apply contains_empty | discriminate].
  - intros [H | H]%orb_prop.
    + change (c :: q ++ post) with ((c :: q) ++ post).
      rewrite (startswith_extend _ _ _ H). reflexivity.
    + rewrite (IH H). apply orb_true_r.
Qed.

Lemma contains_extend_l (w pre q : pystr) :
  contains w q = true -> contains w (pre ++ q) = true.
Proof.
  intros H. induction pre as [|c pre IH]; simpl; [exact H|].
  rewrite IH. apply orb_true_r.
Qed.

Lemma any_in_extend (ws : list pystr) (pre q post : pystr) :
  any_in ws q = true -> any_in ws (pre ++ q ++ post) = true.
Proof.
  unfold any_in. rewrite !existsb_exists. intros (w & Hin & Hw).
  exists w. split; [exact Hin|].
  apply contains_extend_l, contains_extend_r, Hw.
Qed.

Lemma lower_app (a b : pystr) : lower (a ++ b) = lower a ++ lower b.
Proof. unfold lower. apply flat_map_app. Qed.

(** X1.  A climate keyword anywhere in the query decides for Climate,
    whatever text stands before and after it, in both front ends. *)
Theorem climate_keyword_anywhere (pre q post : pystr) :
  any_in climate_words (lower q) = true ->
  App.auto_select_agent (pre ++ q ++ post) = climate_agent
  /\ MainApp.auto_select_agent (pre ++ q ++ post) = Some climate_agent.
Proof.
  intros H.
  assert (H' : any_in climate_words (lower (pre ++ q ++ post)) = true).
  { rewrite !lower_app. apply any_in_extend, H. }
  unfold App.auto_select_agent, MainApp.auto_select_agent, App.classify, MainApp.classify.
  rewrite H'. split; reflexivity.
Qed.

Lemma climate_keyword_anywhere_witness :
  App.auto_select_agent
    (str "Which subsidy scheme pays for crop loss after " ++ str "Heavy Rain"
     ++ str "? Ask the KCC helpline") = climate_agent.
Proof.
  apply (climate_keyword_anywhere
           (str "Which subsidy scheme pays for crop loss after ") (str "Heavy Rain")
           (str "? Ask the KCC helpline")).
  reflexivity.
Defined.

(** ** Letter case *)

Lemma lower_char_same_letter (c d : N) : same_letter c d -> lower_char c = lower_char d.
Proof.
  unfold same_letter, lower_char. intros H.
  repeat match goal with
         | |- context [?a <=? ?b] => destruct (N.leb_spec a b)
         | |- context [?a =? ?b] => destruct (N.eqb_spec a b)
         end; simpl; try lia; f_equal; lia.
Qed.

Lemma lower_same_letters (q q' : pystr) : Forall2 same_letter q q' -> lower q = lower q'.
Proof.
  induction 1 as [|c d q q' Hcd _ IH]; [reflexivity|].
  unfold lower in *. simpl. now rewrite (lower_char_same_letter _ _ Hcd), IH.
Qed.

(** X2.  Two queries that differ only in the case of ASCII letters get
    the same domain, in both front ends. *)
Theorem classification_ignores_case (q q' : pystr) :
  Forall2 same_letter q q' ->
  App.auto_select_agent q = App.auto_select_agent q'
  /\ MainApp.auto_select_agent q = MainApp.auto_select_agent q'.
Proof.
  intros H. unfold App.auto_select_agent, MainApp.auto_select_agent.
  now rewrite (lower_same_letters _ _ H).
Qed.

Lemma classification_ignores_case_witness :
  App.auto_select_agent (str "PMKisan") = App.auto_select_agent (str "pmKISAN").
Proof.
  apply classification_ignores_case.
  change (str "PMKisan") with [80; 77; 75; 105; 115; 97; 110].
  change (str "pmKISAN") with [112; 109; 75; 73; 83; 65; 78].
  repeat (constructor; [unfold same_letter; lia|]). constructor.
Defined.

(** ** The staged path *)

Lemma basename_aux_no_slash (s acc : pystr) :
  no_slash acc = true -> no_slash (basename_aux s acc) = true.
Proof.
  revert acc. induction s as [|c s IH]; intros acc Hacc; simpl; [exact Hacc|].
  destruct (N.eqb_spec c 47) as [->|Hc].
  - apply IH. reflexivity.
  - apply IH. unfold no_slash in *. rewrite forallb_app, Hacc. simpl.
    apply N.eqb_neq in Hc. now rewrite Hc.
Qed.

Lemma basename_aux_plain (s acc : pystr) :
  no_slash s = true -> basename_aux s acc = acc ++ s.
Proof.
  revert acc. induction s as [|c s IH]; intros acc; simpl.
  - now rewrite app_nil_r.
  - intros [Hc Hs]%andb_prop. apply negb_true_iff in Hc. rewrite Hc.
    rewrite (IH _ Hs), <- app_assoc. reflexivity.
Qed.

Lemma basename_aux_skip (dir rest acc : pystr) :
  basename_aux (dir ++ 47 :: rest) acc = basename_aux rest [].
Proof.
  revert acc. induction dir as [|c dir IH]; intros acc; simpl; [reflexivity|].
  destruct (c =? 47); apply IH.
Qed.

(** X3.  Whatever name the upload carries, app.py stages it directly
    under [data/]: what follows [data/] has no slash, and for a name
    [dir/n] it is [n]. *)
Theorem staged_path_in_data (f : uploaded_file) (dir n : pystr) :
  (exists b, App.temp_path_of f = str "data/" ++ b /\ no_slash b = true)
  /\ (uf_name f = dir ++ str "/" ++ n -> no_slash n = true ->
      App.temp_path_of f = str "data/" ++ n).
Proof.
  unfold App.temp_path_of, basename. split.
  - eexists. split; [reflexivity|]. now apply basename_aux_no_slash.
  - intros -> Hn. f_equal.
    change (str "/" ++ n) with (47 :: n).
    rewrite basename_aux_skip. now apply basename_aux_plain.
Qed.

Lemma staged_path_in_data_witness :
  App.temp_path_of (mk_upload (str "../../etc/cron.d/job.csv") (fun _ => []))
  = str "data/job.csv".
Proof.
  apply (staged_path_in_data _ (str "../../etc/cron.d") (str "job.csv")); reflexivity.
Defined.

(** ** More on the cache of app.py *)

Lemma get_agent_cached (E : env) (choice : pystr) (file : option uploaded_file)
    (w w1 : world App.cache) (a : agent) :
  App.get_agent E choice file w = (Ret (Some a), w1) ->
  agent_truth a = true ->
  globals w1 !! App.cache_key choice (staged file) = Some a.
Proof.
  intros Hget Ha. rewrite get_agent_unfold, build_agent_spec in Hget.
  destruct (globals w !! _) as [a0|] eqn:Hlook.
  { injection Hget as <- <-. now rewrite after_staging_globals. }
  destruct (builder_call E choice (staged file)) as [[b arg]|]; [|discriminate].
  destruct (builder_fun E b arg _) as [[a1|]|e]; try discriminate.
  injection Hget as -> <-. rewrite Ha. apply lookup_insert_eq.
Qed.

(** What a lookup does to the cache, the working area and the number of
    builder calls. *)
Lemma get_agent_effect (E : env) (choice : pystr) (file : option uploaded_file)
    (w w' : world App.cache) (r : result (option agent)) :
  App.get_agent E choice file w = (r, w') ->
  files w' = files (after_staging file w)
  /\ (globals w' = globals w
      /\ count is_build (log w) <= count is_build (log w')
      \/ exists a,
           globals w !! App.cache_key choice (staged file) = None
           /\ agent_truth a = true
           /\ In choice concrete_domains
           /\ globals w' = <[App.cache_key choice (staged file) := a]> (globals w)
           /\ count is_build (log w') = S (count is_build (log w)))%nat.
Proof.
  rewrite get_agent_unfold, build_agent_spec.
  destruct (globals w !! _) as [a0|] eqn:Hlook.
  { intros [= <- <-]. split; [reflexivity|]. left.
    rewrite after_staging_globals, after_staging_builds. split; [reflexivity | lia]. }
  destruct (builder_call E choice (staged file)) as [[b arg]|] eqn:Hcall.
  2:{ intros [= <- <-]. split; [reflexivity|]. left.
      rewrite after_staging_globals, after_staging_builds. split; [reflexivity | lia]. }
  assert (Hdom : In choice concrete_domains).
  { unfold builder_call in Hcall. unfold concrete_domains. simpl.
    repeat case_bool_decide; subst; auto. discriminate. }
  destruct (builder_fun E b arg _) as [[a|]|e].
  2,3: intros [= <- <-]; split; [reflexivity|]; left; simpl;
       rewrite after_staging_globals, count_snoc, after_staging_builds; simpl;
       split; [reflexivity | lia].
  destruct (agent_truth a) eqn:Ha; intros [= <- <-]; (split; [reflexivity|]).
  - right. exists a. simpl. rewrite count_snoc, after_staging_builds. simpl.
    repeat split; auto. lia.
  - left. simpl. rewrite after_staging_globals, count_snoc, after_staging_builds. simpl.
    split; [reflexivity | lia].
Qed.

(** [chat_handler], stage by stage. *)
Lemma chat_handler_unfold (E : env) (q choice : pystr) (file : option uploaded_file)
    (h : App.history) (w : world App.cache) :
  App.chat_handler E q choice file h w =
  if App.is_blank q then (Ret (h, []), w)
  else
    match App.get_agent E (selected_agent choice q) file w with
    | (Raise e, w1) => (Raise e, w1)
    | (Ret None, w1) =>
        (Ret (h ++ [(q, failed_to_initialize ++ selected_agent choice q)], []), w1)
    | (Ret (Some a), w1) =>
        if agent_truth a then
          match App.retrieve a q w1 with
          | (Raise e, w2) => (Ret (h ++ [(q, error_retrieving ++ exn_msg e)], []), w2)
          | (Ret ctx, w2) =>
              (Ret (h ++ [(q, answer_of (generate_content E (CHAT_MODEL E)
                                          (App.full_prompt q ctx) (log w2)))], []),
               logged w2 (EvGenerate (CHAT_MODEL E) (App.full_prompt q ctx)))
          end
        else (Ret (h ++ [(q, failed_to_initialize ++ selected_agent choice q)], []), w1)
    end.
Proof.
  unfold App.chat_handler, selected_agent.
  destruct (App.is_blank q); [reflexivity|].
  unfold bind at 1.
  destruct (App.get_agent E _ file w) as [[[a|]|e] w1]; try reflexivity.
  destruct (agent_truth a); [|reflexivity].
  unfold bind at 1, try_except.
  destruct (App.retrieve a q w1) as [[ctx|e] w2]; [|reflexivity].
  unfold bind. rewrite gemini_answer_run. reflexivity.
Qed.

Lemma app_retrieve_effect {G} (a : agent) (q : pystr) (w w' : world G) (r : result pystr) :
  App.retrieve a q w = (r, w') ->
  globals w' = globals w /\ files w' = files w
  /\ count is_build (log w') = count is_build (log w)
  /\ count is_write (log w') = count is_write (log w).
Proof.
  unfold App.retrieve, call_retrieve_context, call_run, external, raise.
  destruct (hasattr_retrieve_context a), (retrieve_context a), (run a);
    intros [= <- <-]; simpl; rewrite ?count_snoc; simpl; repeat split; lia.
Qed.

(** After its lookup [chat_handler] leaves the cache and the working
    area alone and calls no builder. *)
Lemma chat_handler_after_lookup (E : env) (q choice : pystr)
    (file : option uploaded_file) (h : App.history) (w w' : world App.cache)
    (r : result (App.history * pystr)) :
  App.chat_handler E q choice file h w = (r, w') ->
  App.is_blank q = false ->
  exists r1 w1,
    App.get_agent E (selected_agent choice q) file w = (r1, w1)
    /\ globals w' = globals w1 /\ files w' = files w1
    /\ count is_build (log w') = count is_build (log w1).
Proof.
  rewrite chat_handler_unfold. intros Hrun Hq. rewrite Hq in Hrun.
  destruct (App.get_agent E _ file w) as [[[a|]|e] w1]; do 2 eexists;
    (split; [reflexivity|]); try (injection Hrun as <- <-; now repeat split).
  destruct (agent_truth a); [|injection Hrun as <- <-; now repeat split].
  destruct (App.retrieve a q w1) as [[ctx|e] w2] eqn:Hr;
    destruct (app_retrieve_effect _ _ _ _ _ Hr) as (Hg & Hf & Hb & _);
    injection Hrun as <- <-; simpl; rewrite ?count_snoc; simpl;
    repeat split; auto; lia.
Qed.

(** X4.  The cache only grows.  A lookup keeps every entry there is and
    touches no key but its own; [chat_handler] keeps every entry too.
    Nothing is ever evicted or replaced. *)
Theorem cache_only_grows (E : env) (q choice : pystr) (file : option uploaded_file)
    (h : App.history) (w : world App.cache) :
  (forall r w', App.get_agent E choice file w = (r, w') ->
      globals w ⊆ globals w'
      /\ forall k, k <> App.cache_key choice (staged file) ->
                   globals w' !! k = globals w !! k)
  /\ (forall r w', App.chat_handler E q choice file h w = (r, w') ->
      globals w ⊆ globals w').
Proof.
  assert (Hget : forall c r w', App.get_agent E c file w = (r, w') ->
            globals w ⊆ globals w'
            /\ forall k, k <> App.cache_key c (staged file) ->
                         globals w' !! k = globals w !! k).
  { intros c r w' H.
    destruct (get_agent_effect _ _ _ _ _ _ H)
      as (_ & [(-> & _) | (a & Hnone & _ & _ & -> & _)]).
    - split; [reflexivity | reflexivity].
    - split; [now apply insert_subseteq|].
      intros k Hk. now apply lookup_insert_ne. }
  split; [apply Hget|].
  intros r w' Hrun. destruct (App.is_blank q) eqn:Hq.
  - rewrite chat_handler_unfold, Hq in Hrun. now injection Hrun as <- <-.
  - destruct (chat_handler_after_lookup _ _ _ _ _ _ _ _ Hrun Hq)
      as (r1 & w1 & H1 & -> & _).
    apply (Hget _ _ _ H1).
Qed.

Lemma cache_only_grows_witness :
  let w1 := snd (App.get_agent Sample.env_ok climate_agent None Sample.fresh_app) in
  let w2 := snd (App.chat_handler Sample.env_ok Sample.schemes auto_detect None [] w1) in
  globals w1 ⊆ globals w2
  /\ globals w2 !! App.cache_key climate_agent None = Some Sample.structured.
Proof.
  intros w1 w2.
  destruct (cache_only_grows Sample.env_ok Sample.schemes auto_detect None [] w1)
    as [_ H].
  specialize (H _ w2 eq_refl). split; [exact H|].
  vm_compute. reflexivity.
Defined.

(** X5.  Two uploads with the same base name have one staged path and
    one cache entry: after a lookup with the first gave a usable agent,
    a lookup with the second returns that agent without building, while
    the staged file now has the content of the second. *)
Theorem same_base_name_shares_entry (E : env) (choice : pystr)
    (f1 f2 : uploaded_file) (w w1 : world App.cache) (a : agent) :
  basename (uf_name f1) = basename (uf_name f2) ->
  App.get_agent E choice (Some f1) w = (Ret (Some a), w1) ->
  agent_truth a = true ->
  exists w2,
    App.get_agent E choice (Some f2) w1 = (Ret (Some a), w2)
    /\ count is_build (log w2) = count is_build (log w1)
    /\ files w2 !! App.temp_path_of f1 = Some (uf_read f2 (log w1)).
Proof.
  intros Hbase Hget Ha.
  assert (Hpath : App.temp_path_of f2 = App.temp_path_of f1).
  { unfold App.temp_path_of. now rewrite Hbase. }
  pose proof (get_agent_cached _ _ _ _ _ _ Hget Ha) as Hlook.
  assert (Hlook2 : globals w1 !! App.cache_key choice (staged (Some f2)) = Some a).
  { simpl. rewrite Hpath. exact Hlook. }
  exists (after_staging (Some f2) w1).
  split; [apply (get_agent_hit _ _ _ _ _ Hlook2)|].
  split; [apply after_staging_builds|].
  simpl. rewrite Hpath. apply lookup_insert_eq.
Qed.

Lemma same_base_name_shares_entry_witness :
  exists w2,
    App.get_agent Sample.env_ok climate_agent (Some Sample.upload_again)
      (snd (App.get_agent Sample.env_ok climate_agent (Some Sample.upload)
              Sample.fresh_app))
    = (Ret (Some Sample.structured), w2)
    /\ files w2 !! str "data/rain_2020.csv" = Some (str "year,mm,station").
Proof.
  destruct (same_base_name_shares_entry Sample.env_ok climate_agent
              Sample.upload Sample.upload_again Sample.fresh_app
              (snd (App.get_agent Sample.env_ok climate_agent (Some Sample.upload)
                      Sample.fresh_app))
              Sample.structured) as (w2 & H & _ & Hf);
    [reflexivity | reflexivity | reflexivity |].
  exists w2. split; [exact H | exact Hf].
Defined.

(** *** What the cache looks like *)

Lemma get_agent_wf (E : env) (choice : pystr) (file : option uploaded_file)
    (w w' : world App.cache) (r : result (option agent)) :
  App.get_agent E choice file w = (r, w') ->
  cache_wf (globals w) /\ (size (globals w) <= count is_build (log w))%nat ->
  cache_wf (globals w') /\ (size (globals w') <= count is_build (log w'))%nat.
Proof.
  intros Hget [Hwf Hsize].
  destruct (get_agent_effect _ _ _ _ _ _ Hget)
    as (_ & [(-> & Hle) | (a & Hnone & Ha & Hdom & -> & ->)]).
  - split; [exact Hwf | lia].
  - split.
    + intros k a1 Hk.
      destruct (decide (App.cache_key choice (staged file) = k)) as [<-|Hne].
      * rewrite lookup_insert_eq in Hk. injection Hk as <-.
        split; [exact Ha|]. do 2 eexists. split; [exact Hdom | reflexivity].
      * rewrite lookup_insert_ne in Hk by exact Hne. apply (Hwf _ _ Hk).
    + rewrite (map_size_insert_None _ _ _ Hnone). lia.
Qed.

(** X6.  At any time the agents in the cache are truthy, each key is one
    of the four domain labels followed by [_] and a path, and there are
    no more entries than builder calls made so far. *)
Theorem reachable_cache_wf (E : env) (w : world App.cache) :
  reachable E w ->
  cache_wf (globals w) /\ (size (globals w) <= count is_build (log w))%nat.
Proof.
  induction 1 as [fs | w choice file r w' _ IH Hget | w q choice file h r w' _ IH Hrun].
  - split; [|simpl; rewrite map_size_empty; lia].
    intros k a H. simpl in H. rewrite lookup_empty in H. discriminate.
  - apply (get_agent_wf _ _ _ _ _ _ Hget IH).
  - destruct (App.is_blank q) eqn:Hq.
    + rewrite chat_handler_unfold, Hq in Hrun. now injection Hrun as <- <-.
    + destruct (chat_handler_after_lookup _ _ _ _ _ _ _ _ Hrun Hq)
        as (r1 & w1 & H1 & -> & _ & ->).
      apply (get_agent_wf _ _ _ _ _ _ H1 IH).
Qed.

Lemma reachable_cache_wf_witness :
  let w2 := snd (App.chat_handler Sample.env_ok Sample.rainfall auto_detect
                   (Some Sample.upload) [] Sample.fresh_app) in
  cache_wf (globals w2) /\ (size (globals w2) <= count is_build (log w2))%nat.
Proof.
  intros w2. apply (reachable_cache_wf Sample.env_ok).
  apply (reach_chat_handler _ Sample.fresh_app Sample.rainfall auto_detect
           (Some Sample.upload) []
           (fst (App.chat_handler Sample.env_ok Sample.rainfall auto_detect
                   (Some Sample.upload) [] Sample.fresh_app))).
  - apply reach_start.
  - reflexivity.
Defined.

(** ** Choices outside the four domains *)

Lemma builder_call_unknown (E : env) (choice : pystr) (temp_path : option pystr) :
  ~ In choice concrete_domains -> builder_call E choice temp_path = None.
Proof.
  intros H. unfold builder_call.
  repeat case_bool_decide; subst; try reflexivity;
    exfalso; apply H; unfold concrete_domains; simpl; auto.
Qed.

(** X7.  A choice that is none of the four labels never reaches a
    builder and never changes the cache.  Unless its key happens to be in
    the cache, the lookup gives [None], and [chat_handler], given that
    choice by hand, records the turn that names it. *)
Theorem unknown_choice_never_builds (E : env) (q choice : pystr)
    (file : option uploaded_file) (h : App.history) (w : world App.cache) :
  ~ In choice concrete_domains ->
  exists r w',
    App.get_agent E choice file w = (r, w')
    /\ globals w' = globals w
    /\ count is_build (log w') = count is_build (log w)
    /\ (globals w !! App.cache_key choice (staged file) = None ->
        r = Ret None
        /\ (App.is_blank q = false -> choice <> auto_detect ->
            App.chat_handler E q choice file h w
            = (Ret (h ++ [(q, failed_to_initialize ++ choice)], []), w'))).
Proof.
  intros Hc. rewrite get_agent_unfold, build_agent_spec, (builder_call_unknown _ _ _ Hc).
  destruct (globals w !! App.cache_key choice (staged file)) as [a|] eqn:Hlook;
    do 2 eexists; (split; [reflexivity|]);
    (split; [apply after_staging_globals|]); (split; [apply after_staging_builds|]);
    [discriminate|].
  intros _. split; [reflexivity|]. intros Hq Hauto.
  rewrite chat_handler_unfold, Hq. unfold selected_agent.
  rewrite bool_decide_eq_false_2 by exact Hauto.
  rewrite get_agent_unfold, Hlook, build_agent_spec, (builder_call_unknown _ _ _ Hc).
  reflexivity.
Qed.

Lemma unknown_choice_never_builds_witness :
  App.chat_handler Sample.env_ok Sample.rainfall (str "Soil Agent") None []
    Sample.fresh_app
  = (Ret ([(Sample.rainfall, failed_to_initialize ++ str "Soil Agent")], []),
     Sample.fresh_app).
Proof.
  destruct (unknown_choice_never_builds Sample.env_ok Sample.rainfall (str "Soil Agent")
              None [] Sample.fresh_app) as (r & w' & Hget & _ & _ & H).
  - vm_compute. intuition discriminate.
  - destruct H as [_ H]; [reflexivity|].
    rewrite H; [|reflexivity|discriminate].
    injection Hget as _ <-. reflexivity.
Defined.

(** ** What [chat_handler] returns and when it raises *)

(** X8.  A query that is not blank gets exactly one turn: whenever
    [chat_handler] returns, the history is the old one followed by one
    turn with the query as it was typed and a non-empty answer, and the
    text box is cleared. *)
Theorem one_turn_per_query (E : env) (q choice : pystr) (file : option uploaded_file)
    (h h' : App.history) (s : pystr) (w w' : world App.cache) :
  App.is_blank q = false ->
  App.chat_handler E q choice file h w = (Ret (h', s), w') ->
  s = []
  /\ length h' = S (length h)
  /\ exists answer, h' = h ++ [(q, answer)] /\ answer <> [].
Proof.
  intros Hq. rewrite chat_handler_unfold, Hq.
  assert (Hlen : forall t : pystr * pystr, length (h ++ [t]) = S (length h)).
  { intros t. rewrite length_app. simpl. lia. }
  destruct (App.get_agent E _ file w) as [[[a|]|e] w1]; [| |discriminate].
  - destruct (agent_truth a).
    + destruct (App.retrieve a q w1) as [[ctx|e] w2]; intros [= <- <- <-];
        (split; [reflexivity|]); (split; [apply Hlen|]);
        eexists; (split; [reflexivity|]);
        [apply answer_of_nonempty | discriminate].
    + intros [= <- <- <-]. split; [reflexivity|]. split; [apply Hlen|].
      eexists. split; [reflexivity | discriminate].
  - intros [= <- <- <-]. split; [reflexivity|]. split; [apply Hlen|].
    eexists. split; [reflexivity | discriminate].
Qed.

Lemma one_turn_per_query_witness :
  App.chat_handler Sample.env_no_key Sample.rainfall kcc_agent None
    [(Sample.schemes, str "PM-KISAN")] Sample.fresh_app
  = (Ret ([(Sample.schemes, str "PM-KISAN");
           (Sample.rainfall, failed_to_initialize ++ kcc_agent)], []),
     Sample.fresh_app)
  /\ length [(Sample.schemes, str "PM-KISAN");
             (Sample.rainfall, failed_to_initialize ++ kcc_agent)] = 2%nat.
Proof.
  split; [reflexivity|].
  apply (one_turn_per_query Sample.env_no_key Sample.rainfall kcc_agent None
           [(Sample.schemes, str "PM-KISAN")] _ [] Sample.fresh_app Sample.fresh_app);
    reflexivity.
Defined.

(** X9.  Without an upload [chat_handler] raises in one case only: the
    query is not blank, the key is not in the cache, and the builder
    raises.  The exception is the builder's, and nothing is recorded for
    the query. *)
Theorem chat_handler_raises (E : env) (q choice : pystr)
    (h : App.history) (w w' : world App.cache) (e : exn) :
  App.chat_handler E q choice None h w = (Raise e, w') <->
  App.is_blank q = false
  /\ globals w !! App.cache_key (selected_agent choice q) None = None
  /\ exists b arg,
       builder_call E (selected_agent choice q) None = Some (b, arg)
       /\ builder_fun E b arg (log w) = Raise e
       /\ w' = logged w (EvBuild b arg).
Proof.
  rewrite chat_handler_unfold, get_agent_unfold, build_agent_spec.
  cbn [staged after_staging].
  destruct (App.is_blank q).
  { split; [discriminate | intros [? _]; discriminate]. }
  destruct (globals w !! _) as [a0|].
  { split; [|intros (_ & ? & _); discriminate].
    destruct (agent_truth a0); [|discriminate].
    destruct (App.retrieve a0 q _) as [[ctx|e'] w2]; discriminate. }
  destruct (builder_call E _ None) as [[b arg]|].
  2:{ split; [discriminate | intros (_ & _ & b & arg & ? & _); discriminate]. }
  destruct (builder_fun E b arg _) as [[a|]|e0] eqn:Hb.
  - split; [|intros (_ & _ & b' & arg' & [= <- <-] & ? & _); congruence].
    destruct (agent_truth a); [|discriminate].
    destruct (App.retrieve a q _) as [[ctx|e'] w2]; discriminate.
  - split; [discriminate|]. intros (_ & _ & b' & arg' & [= <- <-] & ? & _). congruence.
  - split.
    + intros [= <- <-]. repeat split. exists b, arg. repeat split. exact Hb.
    + intros (_ & _ & b' & arg' & [= <- <-] & Hr & ->). congruence.
Qed.

Lemma chat_handler_raises_witness :
  App.chat_handler Sample.env_flaky Sample.rainfall auto_detect None [] Sample.fresh_app
  = (Raise (mk_exn OtherException (str "embedding service down")),
     logged Sample.fresh_app (EvBuild BuildClimate climate_default)).
Proof.
  apply chat_handler_raises.
  split; [reflexivity|]. split; [reflexivity|].
  exists BuildClimate, climate_default. repeat split.
Defined.

(** ** The answered turn *)

Lemma startswith_self (w : pystr) : startswith w w = true.
Proof. induction w as [|c w IH]; simpl; [reflexivity|]. now rewrite N.eqb_refl. Qed.

Lemma contains_self (w post : pystr) : contains w (w ++ post) = true.
Proof.
  apply (contains_extend_r w w post).
  destruct w as [|c w]; [reflexivity|].
  change (contains (c :: w) (c :: w))
    with (startswith (c :: w) (c :: w) || contains (c :: w) w).
  now rewrite startswith_self.
Qed.

Lemma app_prompt_embeds (prompt context : pystr) :
  contains context (App.full_prompt prompt context) = true
  /\ contains prompt (App.full_prompt prompt context) = true.
Proof.
  unfold App.full_prompt. split.
  - do 8 apply contains_extend_l. apply contains_self.
  - do 13 apply contains_extend_l. apply contains_self.
Qed.

Lemma main_prompt_embeds (prompt context : pystr) :
  contains context (MainApp.full_prompt prompt context) = true
  /\ contains prompt (MainApp.full_prompt prompt context) = true.
Proof.
  unfold MainApp.full_prompt. split.
  - do 12 apply contains_extend_l. apply contains_self.
  - do 19 apply contains_extend_l. apply contains_self.
Qed.

Lemma get_agent_no_generate (E : env) (choice : pystr) (file : option uploaded_file)
    (w w' : world App.cache) (r : result (option agent)) :
  App.get_agent E choice file w = (r, w') ->
  count is_generate (log w') = count is_generate (log w).
Proof.
  assert (Hs : count is_generate (log (after_staging file w)) = count is_generate (log w)).
  { destruct file; [|reflexivity]. simpl. rewrite count_snoc. simpl. lia. }
  rewrite get_agent_unfold, build_agent_spec.
  destruct (globals w !! _) as [a0|]; [now intros [= <- <-]|].
  destruct (builder_call E choice (staged file)) as [[b arg]|]; [|now intros [= <- <-]].
  destruct (builder_fun E b arg _) as [[a|]|e]; try destruct (agent_truth a);
    intros [= <- <-]; simpl; rewrite count_snoc; simpl; lia.
Qed.

Lemma app_retrieve_no_generate {G} (a : agent) (q : pystr) (w w' : world G)
    (r : result pystr) :
  App.retrieve a q w = (r, w') ->
  count is_generate (log w') = count is_generate (log w).
Proof.
  unfold App.retrieve, call_retrieve_context, call_run, external, raise.
  destruct (hasattr_retrieve_context a), (retrieve_context a), (run a);
    intros [= <- <-]; simpl; rewrite ?count_snoc; simpl; lia.
Qed.

(** X10.  When the agent is there, the context is retrieved and the
    service answers with a text, [chat_handler] records that text
    unchanged as the answer.  The service was called once, with a prompt
    in which the retrieved context and the query stand verbatim. *)
Theorem answered_turn (E : env) (q choice : pystr) (file : option uploaded_file)
    (h : App.history) (w w1 w2 : world App.cache) (a : agent) (ctx : pystr)
    (c : N) (t : pystr) :
  App.is_blank q = false ->
  App.get_agent E (selected_agent choice q) file w = (Ret (Some a), w1) ->
  agent_truth a = true ->
  App.retrieve a q w1 = (Ret ctx, w2) ->
  generate_content E (CHAT_MODEL E) (App.full_prompt q ctx) (log w2) = Ret (Some (c :: t)) ->
  exists prompt w',
    App.chat_handler E q choice file h w = (Ret (h ++ [(q, c :: t)], []), w')
    /\ log w' = log w2 ++ [EvGenerate (CHAT_MODEL E) prompt]
    /\ count is_generate (log w') = S (count is_generate (log w))
    /\ contains ctx prompt = true
    /\ contains q prompt = true.
Proof.
  intros Hq Hget Ha Hctx Hgen.
  exists (App.full_prompt q ctx). eexists.
  rewrite chat_handler_unfold, Hq, Hget, Ha, Hctx, Hgen.
  split; [reflexivity|]. split; [reflexivity|].
  split; [|apply app_prompt_embeds].
  simpl. rewrite count_snoc. simpl.
  rewrite (app_retrieve_no_generate _ _ _ _ _ Hctx), (get_agent_no_generate _ _ _ _ _ _ Hget).
  lia.
Qed.

Lemma answered_turn_witness :
  exists prompt w',
    App.chat_handler Sample.env_ok Sample.rainfall auto_detect None [] Sample.fresh_app
    = (Ret ([(Sample.rainfall, str "It will rain.")], []), w')
    /\ log w'
       = [EvBuild BuildClimate climate_default; EvRetrieveContext 1 Sample.rainfall;
          EvGenerate (str "models/gemini-pro-latest") prompt]
    /\ contains (str "IMD rows about " ++ Sample.rainfall) prompt = true.
Proof.
  edestruct (answered_turn Sample.env_ok Sample.rainfall auto_detect None []
               Sample.fresh_app) as (prompt & w' & Hrun & Hlog & _ & Hc & _);
    [vm_compute; reflexivity .. |].
  exists prompt, w'. split; [exact Hrun|]. split; [exact Hlog | exact Hc].
Defined.

(** ** An agent with neither capability *)

(** X11.  An agent that has neither [retrieve_context] nor [run]: app.py
    records the turn with the [AttributeError] about [run] and returns;
    main_app.py lets that [AttributeError] out of the submit block.  In
    both no external call is made for it. *)
Theorem agent_without_capability (E : env) (q choice : pystr)
    (file : option uploaded_file) (h : App.history) (a : agent) :
  retrieve_context a = None -> run a = None -> agent_truth a = true ->
  (forall w w1 : world App.cache,
      App.is_blank q = false ->
      App.get_agent E (selected_agent choice q) file w = (Ret (Some a), w1) ->
      App.chat_handler E q choice file h w
      = (Ret (h ++ [(q, error_retrieving ++ str "'" ++ agent_class a
                        ++ str "' object has no attribute 'run'")], []), w1))
  /\ (forall (w w1 : world MainApp.history) (selected : pystr),
      truthy_str q = true ->
      (if bool_decide (choice = auto_detect)
       then MainApp.auto_select_agent q else Some choice) = Some selected ->
      truthy_str selected = true ->
      MainApp.get_agent E selected (DATA_GOV_API_KEY E) file w = (Ret (Some a), w1) ->
      MainApp.submit E choice file q w = (Raise (no_attribute a "run"), w1)).
Proof.
  intros Hrc Hrun Ha. split.
  - intros w w1 Hq Hget. rewrite chat_handler_unfold, Hq, Hget, Ha.
    unfold App.retrieve, hasattr_retrieve_context, call_run, raise.
    rewrite Hrc, Hrun. reflexivity.
  - intros w w1 selected Hq Hsel Htruthy Hget.
    unfold MainApp.submit. rewrite Hq, Hsel, Htruthy.
    change (negb true) with false. cbv iota.
    rewrite (bind_ret _ _ _ _ _ Hget), Ha.
    apply bind_raise.
    unfold MainApp.retrieve, catch, call_retrieve_context, call_run, raise.
    rewrite Hrc, Hrun. reflexivity.
Qed.

Lemma agent_without_capability_witness :
  fst (App.chat_handler Sample.env_bare Sample.rainfall climate_agent None []
         Sample.fresh_app)
  = Ret ([(Sample.rainfall,
           error_retrieving ++ str "'Stub' object has no attribute 'run'")], [])
  /\ fst (MainApp.submit Sample.env_bare climate_agent None Sample.rainfall
            Sample.fresh_main)
     = Raise (mk_exn AttributeError (str "'Stub' object has no attribute 'run'")).
Proof.
  destruct (agent_without_capability Sample.env_bare Sample.rainfall climate_agent None []
              Sample.bare eq_refl eq_refl eq_refl) as (HA & HM).
  split.
  - erewrite (HA Sample.fresh_app); [reflexivity | reflexivity | vm_compute; reflexivity].
  - erewrite (HM Sample.fresh_main);
      [reflexivity | reflexivity | reflexivity | reflexivity | vm_compute; reflexivity].
Defined.

(** ** The submit block of main_app.py *)

Lemma main_gemini_answer_run {G} (E : env) (prompt context : pystr) (w : world G) :
  MainApp.gemini_answer E prompt context w =
  (Ret (answer_of (generate_content E (CHAT_MODEL E)
                     (MainApp.full_prompt prompt context) (log w))),
   logged w (EvGenerate (CHAT_MODEL E) (MainApp.full_prompt prompt context))).
Proof.
  unfold MainApp.gemini_answer, catch, bind, call_generate, external, ret.
  destruct (generate_content E (CHAT_MODEL E) (MainApp.full_prompt prompt context) (log w))
    as [[[|c t]|]|e]; reflexivity.
Qed.


(** The submit block, stage by stage. *)
Lemma submit_unfold (E : env) (choice : pystr) (file : option uploaded_file)
    (q : pystr) (w : world MainApp.history) :
  MainApp.submit E choice file q w =
  if truthy_str q then
    match (if bool_decide (choice = auto_detect)
           then MainApp.auto_select_agent q else Some choice) with
    | Some selected =>
        if truthy_str selected then
          match MainApp.get_agent E selected (DATA_GOV_API_KEY E) file w with
          | (Raise e, w1) => (Raise e, w1)
          | (Ret None, w1) =>
              (Ret MainApp.Stopped, logged w1 (EvUi UiError MainApp.failed_selected))
          | (Ret (Some a), w1) =>
              if agent_truth a then
                match MainApp.retrieve a q w1 with
                | (Raise e, w2) => (Raise e, w2)
                | (Ret ctx, w2) =>
                    let answer :=
                      answer_of (generate_content E (CHAT_MODEL E)
                                   (MainApp.full_prompt q ctx) (log w2)) in
                    (Ret MainApp.Answered,
                     mk_world (globals w2 ++ [(q, answer)]) (files w2)
                       (log w2 ++ [EvGenerate (CHAT_MODEL E) (MainApp.full_prompt q ctx);
                                   EvUi UiSuccess MainApp.latest_response;
                                   EvUi UiWrite answer]))
                end
              else (Ret MainApp.Stopped, logged w1 (EvUi UiError MainApp.failed_selected))
          end
        else (Ret MainApp.Stopped, logged w (EvUi UiWarning MainApp.could_not_detect))
    | None => (Ret MainApp.Stopped, logged w (EvUi UiWarning MainApp.could_not_detect))
    end
  else (Ret MainApp.Skipped, w).
Proof.
  unfold MainApp.submit.
  destruct (truthy_str q); [|reflexivity]. cbn [negb].
  destruct (if bool_decide (choice = auto_detect) then _ else _) as [selected|];
    [|reflexivity].
  destruct (truthy_str selected); [|reflexivity].
  unfold bind at 1.
  destruct (MainApp.get_agent E selected (DATA_GOV_API_KEY E) file w)
    as [[[a|]|e] w1]; try reflexivity.
  destruct (agent_truth a); [|reflexivity].
  unfold bind at 1.
  destruct (MainApp.retrieve a q w1) as [[ctx|e] w2]; [|reflexivity].
  unfold bind at 1. rewrite main_gemini_answer_run.
  unfold bind, get_globals, put_globals, emit, ret, logged. simpl.
  rewrite <- !app_assoc. reflexivity.
Qed.



(** X13.  A query without any keyword, left to auto-detection: main_app.py
    shows a warning and stops before anything else happens, the upload is
    not even written; app.py treats the query as if Agriculture had been
    chosen by hand. *)
Theorem no_keyword_query (E : env) (file : option uploaded_file) (q : pystr) :
  truthy_str q = true ->
  matches_keyword (lower q) = false ->
  (forall w : world MainApp.history,
      MainApp.submit E auto_detect file q w
      = (Ret MainApp.Stopped, logged w (EvUi UiWarning MainApp.could_not_detect)))
  /\ (forall (h : App.history) (w : world App.cache),
      App.chat_handler E q auto_detect file h w
      = App.chat_handler E q agriculture_agent file h w).
Proof.
  intros Hq Hno. destruct (classify_no_match _ Hno) as [Hmain Happ]. split.
  - intros w. rewrite submit_unfold, Hq.
    rewrite bool_decide_eq_true_2 by reflexivity.
    unfold MainApp.auto_select_agent. rewrite Hmain. reflexivity.
  - intros h w. rewrite !chat_handler_unfold. unfold selected_agent.
    rewrite bool_decide_eq_true_2 by reflexivity.
    rewrite (bool_decide_eq_false_2 (agriculture_agent = auto_detect)) by discriminate.
    unfold App.auto_select_agent. rewrite Happ. reflexivity.
Qed.

Lemma no_keyword_query_witness :
  MainApp.submit Sample.env_ok auto_detect (Some Sample.upload) (str "Hello there")
    Sample.fresh_main
  = (Ret MainApp.Stopped,
     mk_world [] ∅ [EvUi UiWarning MainApp.could_not_detect]).
Proof.
  apply (no_keyword_query Sample.env_ok (Some Sample.upload) (str "Hello there"));
    reflexivity.
Defined.

(** ** The KCC domain and uploads *)

(** X14.  The KCC builder is given the credential, never the upload, yet
    the upload is part of the key: after a KCC lookup with one upload, a
    KCC lookup with an upload of another base name, not cached before,
    writes that upload and calls the KCC builder again with the same
    credential. *)
Theorem kcc_rebuilt_per_upload (E : env) (key : pystr) (f1 f2 : uploaded_file)
    (w w1 : world App.cache) (r1 : result (option agent)) :
  DATA_GOV_API_KEY E = Some key -> truthy_str key = true ->
  basename (uf_name f1) <> basename (uf_name f2) ->
  globals w !! App.cache_key kcc_agent (staged (Some f2)) = None ->
  App.get_agent E kcc_agent (Some f1) w = (r1, w1) ->
  fst (App.get_agent E kcc_agent (Some f2) w1)
  = build_kcc_agent E key (log (after_staging (Some f2) w1))
  /\ log (snd (App.get_agent E kcc_agent (Some f2) w1))
     = log w1 ++ [EvWrite (App.temp_path_of f2) (uf_read f2 (log w1));
                  EvBuild BuildKcc key].
Proof.
  intros Hkey Htruthy Hbase Hnone Hget.
  assert (Hne : App.cache_key kcc_agent (staged (Some f2))
                <> App.cache_key kcc_agent (staged (Some f1))).
  { unfold App.cache_key. cbn [staged or_else]. rewrite !temp_path_truthy. intros H.
    do 2 apply app_inv_head in H. unfold App.temp_path_of in H.
    apply app_inv_head in H. congruence. }
  assert (Hmiss : globals w1 !! App.cache_key kcc_agent (staged (Some f2)) = None).
  { destruct (get_agent_effect _ _ _ _ _ _ Hget)
      as (_ & [(-> & _) | (a & _ & _ & _ & -> & _)]); [exact Hnone|].
    rewrite lookup_insert_ne by congruence. exact Hnone. }
  assert (Hcall : builder_call E kcc_agent (staged (Some f2)) = Some (BuildKcc, key)).
  { unfold builder_call. repeat (case_bool_decide; [discriminate|]).
    case_bool_decide; [|congruence]. now rewrite Hkey, Htruthy. }
  rewrite (get_agent_miss _ _ _ _ Hmiss), Hcall. cbv zeta.
  change (builder_fun E BuildKcc key) with (build_kcc_agent E key).
  destruct (build_kcc_agent E key _) as [[a|]|e]; try destruct (agent_truth a);
    simpl; rewrite <- app_assoc; split; reflexivity.
Qed.

Lemma kcc_rebuilt_per_upload_witness :
  log (snd (App.get_agent Sample.env_ok kcc_agent
              (Some (mk_upload (str "calls_2021.json") (fun _ => str "{}")))
              (snd (App.get_agent Sample.env_ok kcc_agent (Some Sample.upload)
                      Sample.fresh_app))))
  = [EvWrite (str "data/rain_2020.csv") (str "year,mm");
     EvBuild BuildKcc (str "key");
     EvWrite (str "data/calls_2021.json") (str "{}");
     EvBuild BuildKcc (str "key")].
Proof.
  destruct (kcc_rebuilt_per_upload Sample.env_ok (str "key") Sample.upload
              (mk_upload (str "calls_2021.json") (fun _ => str "{}"))
              Sample.fresh_app
              (snd (App.get_agent Sample.env_ok kcc_agent (Some Sample.upload)
                      Sample.fresh_app))
              (fst (App.get_agent Sample.env_ok kcc_agent (Some Sample.upload)
                      Sample.fresh_app))
              eq_refl eq_refl) as [_ H];
    [vm_compute; discriminate | reflexivity | reflexivity |].
  rewrite H. reflexivity.
Defined.
